(** * The eth/66 dispatcher of the sentry multi client

    A shallow embedding of [sentry_multi_client]: the eight eth/66 message
    handlers of [MultiClient], its tag switch [handleInboundMessage] and the
    entry point [HandleInboundMessage] with its panic barrier and its
    invalid-RLP penalty.

    The handlers talk to collaborators that live outside the package: the
    header and body downloaders, the sentry gRPC clients, the chain store, the
    clock and the random source.  Each such call is a command of [Cmd]; a
    handler is a finite tree of commands ([Prog]), and [exec] runs it against
    an arbitrary environment that answers every command from the history of
    the calls made so far.  The RLP codec, the keccak hash and the two
    sorting orders are pure and are taken as operations of [Externals].

    A call to a collaborator always returns; the one panic that the handlers
    can raise themselves, the index [segments[0]] in [newBlock66], is part of
    the model, and so is the barrier that recovers it.  Messages of errors
    are kept up to the values that [fmt.Errorf] formats into them. *)

From Stdlib Require Import ZArith List Bool Lia.
From Stdlib Require Import Strings.String Strings.Byte.
From Stdlib Require Import Permutation Sorted.
Import ListNotations.
Local Open Scope Z_scope.

Set Implicit Arguments.

(** ** Data *)

Definition bytes := list byte.

(** [common.Hash] is a 32 byte array, [proto_types.H512] a 512 bit peer
    identifier and [PeerID] its 64 byte form. *)
Definition Hash := Z.
Definition H512 := Z.
Definition PeerID := Z.

(** Unsigned 64 bit integers are kept in [Z].  [Uint64] is [big.Int.Uint64]:
    the low 64 bits of the absolute value; on a value that is already a
    [uint64] it changes nothing. *)
Definition uint64_modulus : Z := 2 ^ 64.
Definition Uint64 (z : Z) : Z := Z.abs z mod uint64_modulus.

(** Go errors: an error raised by a collaborator or built without [%w], and
    an error wrapped by [fmt.Errorf("...: %w", err)]. *)
Inductive error : Type :=
| ErrNew (msg : string)
| ErrWrap (msg : string) (cause : error).

(** [types.Header], declared outside this package: only the block number is
    read here. *)
Record Header : Type := mkHeader {
  Number : Z;             (* *big.Int *)
  HeaderFields : bytes    (* every other field *)
}.

Definition RawBody := bytes.

Record Block : Type := mkBlock {
  block_header : Header;
  block_rawBody : RawBody
}.

(** Modelled from the spec: [types.Block] is declared outside this package;
    [Block.Header] and [Block.RawBody] give the header and the raw body of
    the block, and [Block.NumberU64] the block number of its header. *)
Definition Block_Header (b : Block) : Header := block_header b.
Definition Block_RawBody (b : Block) : RawBody := block_rawBody b.
Definition Block_NumberU64 (b : Block) : Z := Uint64 (Number (block_header b)).

(** [headerdownload.ChainSegmentHeader]. *)
Record ChainSegmentHeader : Type := mkChainSegmentHeader {
  csh_HeaderRaw : bytes;
  csh_Header : Header;
  csh_Hash : Hash;
  csh_Number : Z
}.

(** [headerdownload.Announce], also the element of [eth.NewBlockHashesPacket]. *)
Record Announce : Type := mkAnnounce {
  ann_Hash : Hash;
  ann_Number : Z
}.

Inductive Penalty : Type :=
| NoPenalty
| OtherPenalty (code : Z).

Definition Penalty_eqb (a b : Penalty) : bool :=
  match a, b with
  | NoPenalty, NoPenalty => true
  | OtherPenalty x, OtherPenalty y => x =? y
  | _, _ => false
  end.

Record PenaltyItem : Type := mkPenaltyItem {
  pen_Penalty : Penalty;
  pen_PeerID : PeerID
}.

Record HeaderRequest : Type := mkHeaderRequest {
  hreq_Hash : Hash;
  hreq_Number : Z;
  hreq_Length : Z;
  hreq_Skip : Z;
  hreq_Reverse : bool
}.

(** [proto_sentry.MessageId]: the eight eth/66 tags handled here and every
    other tag of the protocol. *)
Inductive MessageId : Type :=
| NEW_BLOCK_HASHES_66
| BLOCK_HEADERS_66
| NEW_BLOCK_66
| BLOCK_BODIES_66
| GET_BLOCK_HEADERS_66
| GET_BLOCK_BODIES_66
| RECEIPTS_66
| GET_RECEIPTS_66
| OTHER_MESSAGE (tag : Z).

Inductive PenaltyKind : Type := Kick.

Record InboundMessage : Type := mkInboundMessage {
  in_Id : MessageId;
  in_Data : bytes;
  in_PeerId : H512
}.

(** A sentry client handle.  [sentry_direct] tells whether the handle also
    implements [direct.SentryClient], which adds [Ready]. *)
Record SentryClient : Type := mkSentryClient {
  sentry_index : Z;
  sentry_direct : bool
}.

(** [eth.HashOrNumber] and the eth/66 query and response packets. *)
Record HashOrNumber : Type := mkHashOrNumber {
  hon_Hash : Hash;
  hon_Number : Z
}.

Record GetBlockHeadersPacket : Type := mkGetBlockHeadersPacket {
  gbh_Origin : HashOrNumber;
  gbh_Amount : Z;
  gbh_Skip : Z;
  gbh_Reverse : bool
}.

Record GetBlockHeadersPacket66 : Type := mkGetBlockHeadersPacket66 {
  gbh66_RequestId : Z;
  gbh66_Packet : GetBlockHeadersPacket
}.

Record BlockHeadersPacket66 : Type := mkBlockHeadersPacket66 {
  bh66_RequestId : Z;
  bh66_BlockHeadersPacket : list Header
}.

Record NewBlockPacket : Type := mkNewBlockPacket {
  nb_Block : Block;
  nb_TD : Z
}.

Record GetBlockBodiesPacket66 : Type := mkGetBlockBodiesPacket66 {
  gbb66_RequestId : Z;
  gbb66_Packet : list Hash
}.

Record BlockBodiesRLPPacket66 : Type := mkBlockBodiesRLPPacket66 {
  bbr66_RequestId : Z;
  bbr66_Packet : list bytes
}.

(** One raw body of [eth.BlockRawBodiesPacket]. *)
Record BlockRawBody : Type := mkBlockRawBody {
  rb_Transactions : list bytes;
  rb_Uncles : list Header;
  rb_Withdrawals : list bytes
}.

Record BlockRawBodiesPacket66 : Type := mkBlockRawBodiesPacket66 {
  brb66_RequestId : Z;
  brb66_Packet : list BlockRawBody
}.

Record GetReceiptsPacket66 : Type := mkGetReceiptsPacket66 {
  gr66_RequestId : Z;
  gr66_Packet : list Hash
}.

Record ReceiptsRLPPacket66 : Type := mkReceiptsRLPPacket66 {
  rr66_RequestId : Z;
  rr66_Packet : list bytes
}.

(** [eth.ReceiptsRLPResponse], the cache-only answer. *)
Record ReceiptsRLPResponse : Type := mkReceiptsRLPResponse {
  EncodedReceipts : list bytes;
  PendingIndex : Z
}.

(** The fields of [MultiClient] that the handlers read.  [Hd], [Bd], [db] and
    the semaphore are collaborators reached through [Cmd]. *)
Record MultiClient : Type := mkMultiClient {
  IsMock : bool;
  sentries : list SentryClient;
  TerminalTotalDifficultyPassed : bool;   (* cs.ChainConfig *)
  logPeerInfo : bool;
  sendHeaderRequestsToMultiplePeers : bool;
  disableBlockDownload : bool
}.

(** A Go call that returns [(value, error)]. *)
Inductive result (A : Type) : Type :=
| Ok (a : A)
| Fail (e : error).
Arguments Ok {A} a.
Arguments Fail {A} e.

(** What a handler leaves behind: it returns an [error] ([None] is [nil]) or
    it panics. *)
Inductive exit : Type :=
| Return (err : option error)
| Panicking (rec : string).

(** ** Pure operations defined outside the package

    The RLP codec ([rlp.DecodeBytes], [rlp.EncodeToBytes] at each packet type,
    [rlp.Stream], [rlp.IsInvalidRLPError]), [types.RawRlpHash],
    [isPeerNotFoundErr], the packet checks and the two [sort.Sort] calls. *)
Class Externals : Type := {
  DecodeBytes_NewBlockHashesPacket : bytes -> result (list Announce);
  DecodeBytes_BlockHeadersPacket66 : bytes -> result BlockHeadersPacket66;
  DecodeBytes_NewBlockPacket : bytes -> result NewBlockPacket;
  DecodeBytes_BlockRawBodiesPacket66 : bytes -> result BlockRawBodiesPacket66;
  DecodeBytes_GetBlockHeadersPacket66 : bytes -> result GetBlockHeadersPacket66;
  DecodeBytes_GetBlockBodiesPacket66 : bytes -> result GetBlockBodiesPacket66;
  DecodeBytes_GetReceiptsPacket66 : bytes -> result GetReceiptsPacket66;
  EncodeToBytes_GetBlockHeadersPacket66 : GetBlockHeadersPacket66 -> result bytes;
  EncodeToBytes_BlockHeadersPacket66 : BlockHeadersPacket66 -> result bytes;
  EncodeToBytes_BlockBodiesRLPPacket66 : BlockBodiesRLPPacket66 -> result bytes;
  EncodeToBytes_ReceiptsRLPPacket66 : ReceiptsRLPPacket66 -> result bytes;
  (* rlp.Stream: the state of a streaming decoder over a byte string *)
  Stream : Type;
  NewStream : bytes -> Stream;
  Stream_List : Stream -> result (Z * Stream);
  Stream_Uint : Stream -> result (Z * Stream);
  Stream_Raw : Stream -> result (bytes * Stream);
  IsInvalidRLPError : error -> bool;
  isPeerNotFoundErr : error -> bool;
  RawRlpHash : bytes -> Hash;
  ConvertH512ToPeerID : H512 -> PeerID;
  NewBlockPacket_SanityCheck : NewBlockPacket -> option error;
  Block_HashCheck : Block -> bool -> option error;
  (* sort.Sort(headerdownload.HeadersSort(l)) and
     sort.Sort(headerdownload.HeadersReverseSort(l)) *)
  HeadersSort : list ChainSegmentHeader -> list ChainSegmentHeader;
  HeadersReverseSort : list ChainSegmentHeader -> list ChainSegmentHeader
}.

(** ** Calls to the collaborators *)

Definition Tx := Z.
Definition Time := Z.       (* nanoseconds *)
Definition Duration := Z.   (* nanoseconds *)
Definition Second : Duration := 1000000000.

Inductive LogLevel : Type := LvlError | LvlDebug | LvlTrace.

Inductive Cmd : Type -> Type :=
(* cs.Hd: headerdownload.HeaderDownload *)
| HdInitialCycle : Cmd bool
| HdFetchingNew : Cmd bool
| HdSaveExternalAnnounce (h : Hash) : Cmd unit
| HdHasLink (h : Hash) : Cmd bool
| HdPOSSync : Cmd bool
| HdProcessHeaders (csHeaders : list ChainSegmentHeader) (newBlock : bool)
    (peer : PeerID) : Cmd bool
| HdProcessHeadersPOS (csHeaders : list ChainSegmentHeader) (tx : Tx)
    (peer : PeerID) : Cmd (list PenaltyItem * option error)
| HdRequestMoreHeaders (currentTime : Time)
  : Cmd (option HeaderRequest * list PenaltyItem)
| HdUpdateStats (req : HeaderRequest) (skeleton : bool) (peer : PeerID) : Cmd unit
| HdUpdateRetryTime (req : HeaderRequest) (currentTime : Time)
    (timeout : Duration) : Cmd unit
| HdSingleHeaderAsSegment (headerRaw : bytes) (header : Header)
    (penalizePoSBlocks : bool)
  : Cmd (list ChainSegmentHeader * Penalty * option error)
| HdFirstPoSHeight : Cmd (option Z)
(* cs.Bd: bodydownload.BodyDownload *)
| BdAddToPrefetch (header : Header) (body : RawBody) : Cmd unit
| BdDeliverBodies (txs : list (list bytes)) (uncles : list (list Header))
    (withdrawals : list (list bytes)) (lenOfP2PMsg : Z) (peer : PeerID) : Cmd unit
(* proto_sentry.SentryClient and direct.SentryClient *)
| SendMessageById (sentry : SentryClient) (peer : H512) (id : MessageId)
    (data : bytes) : Cmd (option error)
| PenalizePeer (sentry : SentryClient) (peer : H512) (penalty : PenaltyKind)
  : Cmd (option error)
| PeerMinBlock (sentry : SentryClient) (peer : H512) (minBlock : Z)
  : Cmd (option error)
| SentryReady (sentry : SentryClient) : Cmd bool
(* methods of MultiClient defined in another file of the package *)
| Penalize (penalties : list PenaltyItem) : Cmd unit
| SendHeaderRequest (req : HeaderRequest) : Cmd (PeerID * bool)
| PropagateNewBlockHashes (announces : list Announce) : Cmd unit
(* cs.db, the eth query helpers and cs.getReceiptsActiveGoroutineNumber *)
| DbBeginTemporalRo : Cmd (result Tx)
| DbBeginRo : Cmd (result Tx)
| TxRollback (tx : Tx) : Cmd unit
| DbView_AnswerGetBlockHeadersQuery (query : GetBlockHeadersPacket)
  : Cmd (result (list Header))
| AnswerGetBlockBodiesQuery (tx : Tx) (query : list Hash) : Cmd (list bytes)
| AnswerGetReceiptsQueryCacheOnly (query : list Hash)
  : Cmd (option ReceiptsRLPResponse * bool * option error)
| AnswerGetReceiptsQuery (tx : Tx) (query : list Hash)
    (cachedReceipts : option ReceiptsRLPResponse) : Cmd (result (list bytes))
| SemAcquire : Cmd (option error)
| SemRelease : Cmd unit
(* time.Now, rand.Uint64, cs.logger *)
| TimeNow : Cmd Time
| RandUint64 : Cmd Z
| Log (lvl : LogLevel) (msg : string) (err : option error) : Cmd unit.

(** A handler is a finite tree: it returns, or it issues a command and goes
    on with the answer. *)
Inductive Prog (A : Type) : Type :=
| Ret (a : A)
| Call (R : Type) (c : Cmd R) (k : R -> Prog A).
Arguments Ret {A} a.
Arguments Call {A R} c k.

Fixpoint bind {A B : Type} (p : Prog A) (f : A -> Prog B) : Prog B :=
  match p with
  | Ret a => f a
  | Call c k => Call c (fun r => bind (k r) f)
  end.

Declare Scope prog_scope.
Delimit Scope prog_scope with prog.
Notation "x <- c ;; k" := (Call c (fun x => k))
  (at level 61, c at next level, right associativity) : prog_scope.
Notation "' pat <- c ;; k" := (Call c (fun x => match x with pat => k end))
  (at level 61, pat pattern, c at next level, right associativity) : prog_scope.
Notation "c ;;; k" := (Call c (fun _ => k))
  (at level 61, right associativity) : prog_scope.
Notation "x <<- p ;; k" := (bind p (fun x => k))
  (at level 61, p at next level, right associativity) : prog_scope.

(** One call with its answer. *)
Inductive Event : Type :=
| Ev (R : Type) (c : Cmd R) (r : R).
Arguments Ev {R} c r.

(** The environment answers a command from the calls made so far. *)
Definition Oracle : Type := forall R : Type, list Event -> Cmd R -> R.

(** [exec o hist p] runs [p] after the calls [hist]; it gives the value of
    [p] and the calls [p] made, in order. *)
Fixpoint exec {A : Type} (o : Oracle) (hist : list Event) (p : Prog A)
  : A * list Event :=
  match p with
  | Ret a => (a, [])
  | Call c k =>
      let r := o _ hist c in
      let rest := exec o (hist ++ [Ev c r]) (k r) in
      (fst rest, Ev c r :: snd rest)
  end.

Definition value {A : Type} (o : Oracle) (hist : list Event) (p : Prog A) : A :=
  fst (exec o hist p).

Definition trace {A : Type} (o : Oracle) (hist : list Event) (p : Prog A)
  : list Event :=
  snd (exec o hist p).

(** ** Reading a trace

    [select f tr] keeps, in order, what [f] picks from the calls of [tr]; the
    selectors below pick the arguments (and, where a claim needs it, the
    answer) of one kind of call. *)
Definition select {B : Type} (f : Event -> option B) (tr : list Event) : list B :=
  flat_map (fun e => match f e with Some b => [b] | None => [] end) tr.

Definition PeerMinBlock_call (e : Event) : option (SentryClient * H512 * Z) :=
  match e with
  | Ev c _ =>
      match c with
      | PeerMinBlock s p n => Some (s, p, n)
      | _ => None
      end
  end.

Definition PenalizePeer_call (e : Event)
  : option (SentryClient * H512 * PenaltyKind) :=
  match e with
  | Ev c _ =>
      match c with
      | PenalizePeer s p k => Some (s, p, k)
      | _ => None
      end
  end.

Definition Penalize_call (e : Event) : option (list PenaltyItem) :=
  match e with
  | Ev c _ =>
      match c with
      | Penalize ps => Some ps
      | _ => None
      end
  end.

Definition SendMessageById_call (e : Event)
  : option (SentryClient * H512 * MessageId * bytes) :=
  match e with
  | Ev c _ =>
      match c with
      | SendMessageById s p id data => Some (s, p, id, data)
      | _ => None
      end
  end.

(** A send together with the error it came back with. *)
Definition SendMessageById_reply (e : Event)
  : option (SentryClient * H512 * MessageId * bytes * option error) :=
  match e with
  | Ev c r =>
      match c in Cmd R
            return R -> option (SentryClient * H512 * MessageId * bytes * option error)
      with
      | SendMessageById s p id data => fun r => Some (s, p, id, data, r)
      | _ => fun _ => None
      end r
  end.

Definition ProcessHeaders_call (e : Event)
  : option (list ChainSegmentHeader * bool * PeerID) :=
  match e with
  | Ev c _ =>
      match c with
      | HdProcessHeaders segs nb peer => Some (segs, nb, peer)
      | _ => None
      end
  end.

Definition ProcessHeadersPOS_call (e : Event)
  : option (list ChainSegmentHeader * Tx * PeerID) :=
  match e with
  | Ev c _ =>
      match c with
      | HdProcessHeadersPOS segs tx peer => Some (segs, tx, peer)
      | _ => None
      end
  end.

Definition PropagateNewBlockHashes_call (e : Event) : option (list Announce) :=
  match e with
  | Ev c _ =>
      match c with
      | PropagateNewBlockHashes anns => Some anns
      | _ => None
      end
  end.

Definition SaveExternalAnnounce_call (e : Event) : option Hash :=
  match e with
  | Ev c _ =>
      match c with
      | HdSaveExternalAnnounce h => Some h
      | _ => None
      end
  end.

Definition AddToPrefetch_call (e : Event) : option (Header * RawBody) :=
  match e with
  | Ev c _ =>
      match c with
      | BdAddToPrefetch h b => Some (h, b)
      | _ => None
      end
  end.

(** The answers of the downloader and of the store. *)
Definition POSSync_answer (e : Event) : option bool :=
  match e with
  | Ev c r =>
      match c in Cmd R return R -> option bool with
      | HdPOSSync => fun r => Some r
      | _ => fun _ => None
      end r
  end.

Definition FirstPoSHeight_answer (e : Event) : option (option Z) :=
  match e with
  | Ev c r =>
      match c in Cmd R return R -> option (option Z) with
      | HdFirstPoSHeight => fun r => Some r
      | _ => fun _ => None
      end r
  end.

Definition SingleHeaderAsSegment_answer (e : Event)
  : option (list ChainSegmentHeader * Penalty * option error) :=
  match e with
  | Ev c r =>
      match c in Cmd R
            return R -> option (list ChainSegmentHeader * Penalty * option error)
      with
      | HdSingleHeaderAsSegment _ _ _ => fun r => Some r
      | _ => fun _ => None
      end r
  end.

Definition InitialCycle_answer (e : Event) : option bool :=
  match e with
  | Ev c r =>
      match c in Cmd R return R -> option bool with
      | HdInitialCycle => fun r => Some r
      | _ => fun _ => None
      end r
  end.

Definition FetchingNew_answer (e : Event) : option bool :=
  match e with
  | Ev c r =>
      match c in Cmd R return R -> option bool with
      | HdFetchingNew => fun r => Some r
      | _ => fun _ => None
      end r
  end.

Definition DbView_answer (e : Event)
  : option (GetBlockHeadersPacket * result (list Header)) :=
  match e with
  | Ev c r =>
      match c in Cmd R
            return R -> option (GetBlockHeadersPacket * result (list Header))
      with
      | DbView_AnswerGetBlockHeadersQuery q => fun r => Some (q, r)
      | _ => fun _ => None
      end r
  end.

(** ** The handlers *)

Section Handlers.
Context {X : Externals}.
Local Open Scope string_scope.
Local Open Scope list_scope.
Local Open Scope Z_scope.
Local Open Scope prog_scope.

(** [len(l) > 0] *)
Definition nonempty {A : Type} (l : list A) : bool :=
  match l with
  | [] => false
  | _ :: _ => true
  end.

(** [defer d] around [body]: [d] runs when [body] has produced its value. *)
Definition deferring {A : Type} (d : Prog unit) (body : Prog A) : Prog A :=
  r <<- body ;; _ <<- d ;; Ret r.

(** The body of [for _, announce := range request] in [newBlockHashes66]. *)
Fixpoint newBlockHashes66_loop (req : InboundMessage) (sentry : SentryClient)
  (request : list Announce) : Prog exit :=
  match request with
  | [] => Ret (Return None)
  | announce :: rest =>
      HdSaveExternalAnnounce (ann_Hash announce) ;;;
      hasLink <- HdHasLink (ann_Hash announce) ;;
      if hasLink then newBlockHashes66_loop req sentry rest
      else
        requestId <- RandUint64 ;;
        match EncodeToBytes_GetBlockHeadersPacket66
                {| gbh66_RequestId := Uint64 requestId;
                   gbh66_Packet :=
                     {| gbh_Amount := 1;
                        gbh_Reverse := false;
                        gbh_Skip := 0;
                        gbh_Origin := {| hon_Hash := ann_Hash announce;
                                         hon_Number := 0 |} |} |} with
        | Fail err => Ret (Return (Some (ErrWrap "encode header request" err)))
        | Ok b =>
            sendErr <- SendMessageById sentry (in_PeerId req)
                         GET_BLOCK_HEADERS_66 b ;;
            match sendErr with
            | Some err =>
                if isPeerNotFoundErr err
                then newBlockHashes66_loop req sentry rest
                else Ret (Return (Some (ErrWrap "send header request" err)))
            | None => newBlockHashes66_loop req sentry rest
            end
        end
  end.

Definition newBlockHashes66 (cs : MultiClient) (req : InboundMessage)
  (sentry : SentryClient) : Prog exit :=
  if disableBlockDownload cs then Ret (Return None)
  else
    initialCycle <- HdInitialCycle ;;
    (* cs.Hd.InitialCycle() && !cs.Hd.FetchingNew() *)
    fetchingNew <<- (if initialCycle then Call HdFetchingNew (fun b => Ret b)
                     else Ret true) ;;
    if initialCycle && negb fetchingNew then Ret (Return None)
    else
      match DecodeBytes_NewBlockHashesPacket (in_Data req) with
      | Fail err => Ret (Return (Some (ErrWrap "decode NewBlockHashes66" err)))
      | Ok request => newBlockHashes66_loop req sentry request
      end.

(** The loop of [blockHeaders] that reads one raw header per typed header:
    [highestBlock] and [csHeaders] are the loop's two variables. *)
Fixpoint blockHeaders_loop (pkt : list Header) (rlpStream : Stream)
  (highestBlock : Z) (csHeaders : list ChainSegmentHeader)
  : result (Z * list ChainSegmentHeader) :=
  match pkt with
  | [] => Ok (highestBlock, csHeaders)
  | header :: rest =>
      match Stream_Raw rlpStream with
      | Fail err => Fail (ErrWrap "decode 3 BlockHeadersPacket66" err)
      | Ok (headerRaw, rlpStream') =>
          let hRaw := (@nil byte ++ headerRaw)%list in
          let number := Uint64 (Number header) in
          let highestBlock' :=
            if highestBlock <? number then number else highestBlock in
          blockHeaders_loop rest rlpStream' highestBlock'
            (csHeaders ++ [ {| csh_Header := header;
                               csh_HeaderRaw := hRaw;
                               csh_Hash := RawRlpHash hRaw;
                               csh_Number := number |} ])%list
      end
  end.

(** The [PeerMinBlock] call that ends [blockHeaders] and [newBlock66]. *)
Definition sendPeerMinBlock (sentryClient : SentryClient) (peerID : H512)
  (minBlock : Z) : Prog unit :=
  err1 <- PeerMinBlock sentryClient peerID minBlock ;;
  match err1 with
  | Some e => Log LvlError "Could not send min block for peer" (Some e) ;;; Ret tt
  | None => Ret tt
  end.

Definition blockHeaders (cs : MultiClient) (pkt : list Header)
  (rlpStream : Stream) (peerID : H512) (sentryClient : SentryClient)
  : Prog exit :=
  if disableBlockDownload cs then Ret (Return None)
  else if (List.length pkt =? 0)%nat then Ret (Return None)
  else
    match Stream_List rlpStream with
    | Fail err => Ret (Return (Some (ErrWrap "decode 2 BlockHeadersPacket66" err)))
    | Ok (_, rlpStream1) =>
        match blockHeaders_loop pkt rlpStream1 0 [] with
        | Fail err => Ret (Return (Some err))
        | Ok (highestBlock, csHeaders) =>
            posSync <- HdPOSSync ;;
            if posSync then
              let csHeaders := HeadersReverseSort csHeaders in
              txr <- DbBeginTemporalRo ;;
              match txr with
              | Fail err => Ret (Return (Some err))
              | Ok tx =>
                  deferring (TxRollback tx ;;; Ret tt)
                    ('(penalties, err) <- HdProcessHeadersPOS csHeaders tx
                                            (ConvertH512ToPeerID peerID) ;;
                     match err with
                     | Some e => Ret (Return (Some e))
                     | None =>
                         _ <<- (if nonempty penalties
                                then Penalize penalties ;;; Ret tt
                                else Ret tt) ;;
                         _ <<- sendPeerMinBlock sentryClient peerID highestBlock ;;
                         Ret (Return None)
                     end)
              end
            else
              let csHeaders := HeadersSort csHeaders in
              canRequestMore <- HdProcessHeaders csHeaders false
                                  (ConvertH512ToPeerID peerID) ;;
              _ <<- (if canRequestMore then
                       currentTime <- TimeNow ;;
                       '(req, penalties) <- HdRequestMoreHeaders currentTime ;;
                       _ <<- match req with
                             | Some req =>
                                 '(peer, sentToPeer) <- SendHeaderRequest req ;;
                                 if sentToPeer then
                                   HdUpdateStats req false peer ;;;
                                   HdUpdateRetryTime req currentTime (5 * Second) ;;;
                                   Ret tt
                                 else Ret tt
                             | None => Ret tt
                             end ;;
                       if nonempty penalties
                       then Penalize penalties ;;; Ret tt
                       else Ret tt
                     else Ret tt) ;;
              _ <<- sendPeerMinBlock sentryClient peerID highestBlock ;;
              Ret (Return None)
        end
    end.

Definition blockHeaders66 (cs : MultiClient) (inmsg : InboundMessage)
  (sentry : SentryClient) : Prog exit :=
  match DecodeBytes_BlockHeadersPacket66 (in_Data inmsg) with
  | Fail err => Ret (Return (Some (ErrWrap "decode 1 BlockHeadersPacket66" err)))
  | Ok pkt =>
      let rlpStream := NewStream (in_Data inmsg) in
      match Stream_List rlpStream with
      | Fail err => Ret (Return (Some (ErrWrap "decode 1 BlockHeadersPacket66" err)))
      | Ok (_, rlpStream1) =>
          match Stream_Uint rlpStream1 with
          | Fail err =>
              Ret (Return (Some (ErrWrap "decode 2 BlockHeadersPacket66" err)))
          | Ok (_, rlpStream2) =>
              blockHeaders cs (bh66_BlockHeadersPacket pkt) rlpStream2
                (in_PeerId inmsg) sentry
          end
      end
  end.

(** [sentry.PenalizePeer] with the error only logged. *)
Definition sendPenalty (sentry : SentryClient) (peer : H512) : Prog unit :=
  err1 <- PenalizePeer sentry peer Kick ;;
  match err1 with
  | Some e => Log LvlError "Could not send penalty" (Some e) ;;; Ret tt
  | None => Ret tt
  end.

(** [for _, sentry := range cs.sentries] in the penalty branch of
    [newBlock66]: a direct sentry that is not ready is skipped. *)
Fixpoint newBlock66_penalize (ss : list SentryClient) (peer : H512) : Prog unit :=
  match ss with
  | [] => Ret tt
  | sentry :: rest =>
      skip <<- (if sentry_direct sentry
                then ready <- SentryReady sentry ;; Ret (negb ready)
                else Ret false) ;;
      if skip then newBlock66_penalize rest peer
      else _ <<- sendPenalty sentry peer ;; newBlock66_penalize rest peer
  end.

(** The branch of [newBlock66] taken when [SingleHeaderAsSegment] reports no
    penalty.  [segments[0]] panics on an empty slice; [None] means that the
    branch ran to its end. *)
Definition newBlock66_noPenalty (cs : MultiClient) (inreq : InboundMessage)
  (segments : list ChainSegmentHeader) : Prog (option exit) :=
  let propagate := negb (TerminalTotalDifficultyPassed cs) in
  firstPosSeen <- HdFirstPoSHeight ;;
  let propagate' : option bool :=
    match firstPosSeen with
    | Some first =>
        if propagate then
          match segments with
          | [] => None
          | seg0 :: _ => Some (first >=? csh_Number seg0)
          end
        else Some propagate
    | None => Some propagate
    end in
  match propagate' with
  | None => Ret (Some (Panicking "index out of range [0] with length 0"))
  | Some propagate =>
      if negb (IsMock cs) && propagate then
        match segments with
        | [] => Ret (Some (Panicking "index out of range [0] with length 0"))
        | seg0 :: _ =>
            PropagateNewBlockHashes
              [ {| ann_Number := csh_Number seg0; ann_Hash := csh_Hash seg0 |} ] ;;;
            HdProcessHeaders segments true (ConvertH512ToPeerID (in_PeerId inreq)) ;;;
            Ret None
        end
      else
        HdProcessHeaders segments true (ConvertH512ToPeerID (in_PeerId inreq)) ;;;
        Ret None
  end.

(** The statements of [newBlock66] that follow the segment branch. *)
Definition newBlock66_finish (inreq : InboundMessage) (sentryClient : SentryClient)
  (request : NewBlockPacket) : Prog exit :=
  BdAddToPrefetch (Block_Header (nb_Block request))
                  (Block_RawBody (nb_Block request)) ;;;
  _ <<- sendPeerMinBlock sentryClient (in_PeerId inreq)
          (Block_NumberU64 (nb_Block request)) ;;
  Log LvlTrace "NewBlockMsg" None ;;;
  Ret (Return None).

(** [newBlock66] from the point where [SingleHeaderAsSegment] has returned
    without error. *)
Definition newBlock66_segment (cs : MultiClient) (inreq : InboundMessage)
  (sentryClient : SentryClient) (request : NewBlockPacket)
  (segments : list ChainSegmentHeader) (penalty : Penalty) : Prog exit :=
  early <<- (if Penalty_eqb penalty NoPenalty
             then newBlock66_noPenalty cs inreq segments
             else _ <<- newBlock66_penalize (sentries cs) (in_PeerId inreq) ;;
                  Ret None) ;;
  match early with
  | Some ex => Ret ex
  | None => newBlock66_finish inreq sentryClient request
  end.

Definition newBlock66 (cs : MultiClient) (inreq : InboundMessage)
  (sentryClient : SentryClient) : Prog exit :=
  if disableBlockDownload cs then Ret (Return None)
  else
    let rlpStream := NewStream (in_Data inreq) in
    match Stream_List rlpStream with
    | Fail err => Ret (Return (Some (ErrWrap "decode 1 NewBlockMsg" err)))
    | Ok (_, rlpStream1) =>
    match Stream_List rlpStream1 with
    | Fail err => Ret (Return (Some (ErrWrap "decode 2 NewBlockMsg" err)))
    | Ok (_, rlpStream2) =>
    match Stream_Raw rlpStream2 with
    | Fail err => Ret (Return (Some (ErrWrap "decode 3 NewBlockMsg" err)))
    | Ok (headerRaw, _) =>
    match DecodeBytes_NewBlockPacket (in_Data inreq) with
    | Fail err => Ret (Return (Some (ErrWrap "decode 4 NewBlockMsg" err)))
    | Ok request =>
    match NewBlockPacket_SanityCheck request with
    | Some err => Ret (Return (Some (ErrWrap "newBlock66" err)))
    | None =>
    match Block_HashCheck (nb_Block request) true with
    | Some err => Ret (Return (Some (ErrWrap "newBlock66" err)))
    | None =>
        '(segments, penalty, err) <- HdSingleHeaderAsSegment headerRaw
                                       (Block_Header (nb_Block request)) true ;;
        match err with
        | Some e => Ret (Return (Some (ErrWrap "singleHeaderAsSegment failed" e)))
        | None => newBlock66_segment cs inreq sentryClient request segments penalty
        end
    end end end end end end.

(** Modelled from the spec: [BlockRawBodiesPacket.Unpack] is not in this
    package; it splits the bodies into their transactions, uncles and
    withdrawals. *)
Definition Unpack (p : list BlockRawBody)
  : list (list bytes) * list (list Header) * list (list bytes) :=
  (map rb_Transactions p, map rb_Uncles p, map rb_Withdrawals p).

Definition blockBodies66 (cs : MultiClient) (inreq : InboundMessage)
  (sentryClient : SentryClient) : Prog exit :=
  if disableBlockDownload cs then Ret (Return None)
  else
    match DecodeBytes_BlockRawBodiesPacket66 (in_Data inreq) with
    | Fail err => Ret (Return (Some (ErrWrap "decode BlockBodiesPacket66" err)))
    | Ok request =>
        let '(txs, uncles, withdrawals) := Unpack (brb66_Packet request) in
        if negb (nonempty txs) && negb (nonempty uncles) && negb (nonempty withdrawals)
        then Ret (Return None)
        else
          BdDeliverBodies txs uncles withdrawals
            (Z.of_nat (List.length (in_Data inreq)))
            (ConvertH512ToPeerID (in_PeerId inreq)) ;;;
          Ret (Return None)
    end.

Definition receipts66 (cs : MultiClient) (inreq : InboundMessage)
  (sentryClient : SentryClient) : Prog exit :=
  Ret (Return None).

Definition getBlockHeaders66 (cs : MultiClient) (inreq : InboundMessage)
  (sentry : SentryClient) : Prog exit :=
  match DecodeBytes_GetBlockHeadersPacket66 (in_Data inreq) with
  | Fail err => Ret (Return (Some (ErrWrap "decoding getBlockHeaders66" err)))
  | Ok query =>
      viewed <- DbView_AnswerGetBlockHeadersQuery (gbh66_Packet query) ;;
      match viewed with
      | Fail err => Ret (Return (Some (ErrWrap "querying BlockHeaders" err)))
      | Ok headers =>
          match EncodeToBytes_BlockHeadersPacket66
                  {| bh66_RequestId := gbh66_RequestId query;
                     bh66_BlockHeadersPacket := headers |} with
          | Fail err => Ret (Return (Some (ErrWrap "encode header response" err)))
          | Ok b =>
              sendErr <- SendMessageById sentry (in_PeerId inreq) BLOCK_HEADERS_66 b ;;
              match sendErr with
              | Some err =>
                  if negb (isPeerNotFoundErr err)
                  then Ret (Return (Some (ErrWrap "send header response 66" err)))
                  else Ret (Return (Some (ErrWrap "send header response 66" err)))
              | None => Ret (Return None)
              end
          end
      end
  end.

Definition getBlockBodies66 (cs : MultiClient) (inreq : InboundMessage)
  (sentry : SentryClient) : Prog exit :=
  match DecodeBytes_GetBlockBodiesPacket66 (in_Data inreq) with
  | Fail err => Ret (Return (Some (ErrWrap "decoding getBlockBodies66" err)))
  | Ok query =>
      txr <- DbBeginRo ;;
      match txr with
      | Fail err => Ret (Return (Some err))
      | Ok tx =>
          deferring (TxRollback tx ;;; Ret tt)
            (response <- AnswerGetBlockBodiesQuery tx (gbb66_Packet query) ;;
             TxRollback tx ;;;
             match EncodeToBytes_BlockBodiesRLPPacket66
                     {| bbr66_RequestId := gbb66_RequestId query;
                        bbr66_Packet := response |} with
             | Fail err => Ret (Return (Some (ErrWrap "encode header response" err)))
             | Ok b =>
                 sendErr <- SendMessageById sentry (in_PeerId inreq)
                              BLOCK_BODIES_66 b ;;
                 match sendErr with
                 | Some err =>
                     if isPeerNotFoundErr err then Ret (Return None)
                     else Ret (Return (Some (ErrWrap "send bodies response" err)))
                 | None => Ret (Return None)
                 end
             end)
      end
  end.

(** The end of [getReceipts66]: encode the list and send it. *)
Definition getReceipts66_reply (query : GetReceiptsPacket66)
  (inreq : InboundMessage) (sentryClient : SentryClient)
  (receiptsList : list bytes) : Prog exit :=
  match EncodeToBytes_ReceiptsRLPPacket66
          {| rr66_RequestId := gr66_RequestId query;
             rr66_Packet := receiptsList |} with
  | Fail err => Ret (Return (Some (ErrWrap "encode header response" err)))
  | Ok b =>
      sendErr <- SendMessageById sentryClient (in_PeerId inreq) RECEIPTS_66 b ;;
      match sendErr with
      | Some err =>
          if isPeerNotFoundErr err then Ret (Return None)
          else Ret (Return (Some (ErrWrap "send receipts response" err)))
      | None => Ret (Return None)
      end
  end.

Definition getReceipts66 (cs : MultiClient) (inreq : InboundMessage)
  (sentryClient : SentryClient) : Prog exit :=
  match DecodeBytes_GetReceiptsPacket66 (in_Data inreq) with
  | Fail err => Ret (Return (Some (ErrWrap "decoding getReceipts66" err)))
  | Ok query =>
      '(cachedReceipts, needMore, err) <-
         AnswerGetReceiptsQueryCacheOnly (gr66_Packet query) ;;
      match err with
      | Some e => Ret (Return (Some e))
      | None =>
          let receiptsList :=
            match cachedReceipts with
            | Some c => EncodedReceipts c
            | None => []
            end in
          if needMore then
            acquireErr <- SemAcquire ;;
            match acquireErr with
            | Some e => Ret (Return (Some e))
            | None =>
                deferring (SemRelease ;;; Ret tt)
                  (txr <- DbBeginTemporalRo ;;
                   match txr with
                   | Fail e => Ret (Return (Some e))
                   | Ok tx =>
                       deferring (TxRollback tx ;;; Ret tt)
                         (answered <- AnswerGetReceiptsQuery tx (gr66_Packet query)
                                        cachedReceipts ;;
                          match answered with
                          | Fail e => Ret (Return (Some e))
                          | Ok receiptsList =>
                              getReceipts66_reply query inreq sentryClient receiptsList
                          end)
                   end)
            end
          else getReceipts66_reply query inreq sentryClient receiptsList
      end
  end.

Definition handleInboundMessage (cs : MultiClient) (inreq : InboundMessage)
  (sentry : SentryClient) : Prog exit :=
  match in_Id inreq with
  | NEW_BLOCK_HASHES_66 => newBlockHashes66 cs inreq sentry
  | BLOCK_HEADERS_66 => blockHeaders66 cs inreq sentry
  | NEW_BLOCK_66 => newBlock66 cs inreq sentry
  | BLOCK_BODIES_66 => blockBodies66 cs inreq sentry
  | GET_BLOCK_HEADERS_66 => getBlockHeaders66 cs inreq sentry
  | GET_BLOCK_BODIES_66 => getBlockBodies66 cs inreq sentry
  | RECEIPTS_66 => receipts66 cs inreq sentry
  | GET_RECEIPTS_66 => getReceipts66 cs inreq sentry
  | OTHER_MESSAGE _ => Ret (Return (Some (ErrNew "not implemented for message Id")))
  end.

(** [HandleInboundMessage]: a panic of the handler is recovered by the
    deferred function and becomes the returned error; an error that the
    handler returns is checked for the invalid-RLP penalty and returned. *)
Definition HandleInboundMessage (cs : MultiClient) (message : InboundMessage)
  (sentry : SentryClient) : Prog (option error) :=
  ex <<- handleInboundMessage cs message sentry ;;
  match ex with
  | Panicking rec => Ret (Some (ErrNew rec))
  | Return err =>
      match err with
      | Some e =>
          if IsInvalidRLPError e then
            Log LvlDebug "Kick peer for invalid RLP" (Some e) ;;;
            _ <<- sendPenalty sentry (in_PeerId message) ;;
            Ret err
          else Ret err
      | None => Ret err
      end
  end.

End Handlers.

(** ** Vocabulary of the specification *)

Section Specification.
Context {X : Externals}.

(** Modelled from the spec: [headerdownload.HeadersSort] and
    [headerdownload.HeadersReverseSort] are declared outside this package.
    [sort.Sort] permutes the slice, and afterwards no element is [Less] than
    an earlier one; [HeadersSort] orders by ascending block number and
    [HeadersReverseSort] by descending block number. *)
Class SortLaws : Prop := {
  HeadersSort_perm : forall l, Permutation l (HeadersSort l);
  HeadersSort_sorted : forall l,
    StronglySorted (fun a b => csh_Number a <= csh_Number b) (HeadersSort l);
  HeadersReverseSort_perm : forall l, Permutation l (HeadersReverseSort l);
  HeadersReverseSort_sorted : forall l,
    StronglySorted (fun a b => csh_Number a >= csh_Number b) (HeadersReverseSort l)
}.

(** Modelled from the spec: [rlp.Stream] is declared outside this package.
    Over a byte string the stream reads from left to right: [List] and [Uint]
    consume a prefix of what is unread, and [Raw] returns exactly the bytes
    it consumes, the raw slice of the next item. *)
Class StreamLaws : Prop := {
  stream_unread : exists unread : Stream -> bytes,
    (forall data, unread (NewStream data) = data) /\
    (forall s n s', Stream_List s = Ok (n, s') ->
                    exists head, unread s = head ++ unread s') /\
    (forall s n s', Stream_Uint s = Ok (n, s') ->
                    exists item, unread s = item ++ unread s') /\
    (forall s raw s', Stream_Raw s = Ok (raw, s') -> unread s = raw ++ unread s')
}.

(** The next [n] raw items of a stream. *)
Fixpoint Stream_Raws (n : nat) (s : Stream) : result (list bytes) :=
  match n with
  | O => Ok []
  | S n' =>
      match Stream_Raw s with
      | Fail e => Fail e
      | Ok (raw, s') =>
          match Stream_Raws n' s' with
          | Fail e => Fail e
          | Ok raws => Ok (raw :: raws)
          end
      end
  end.

(** The segment header that [blockHeaders] builds from a typed header and the
    raw bytes read for it. *)
Definition segment_of (header : Header) (raw : bytes) : ChainSegmentHeader :=
  {| csh_Header := header;
     csh_HeaderRaw := raw;
     csh_Hash := RawRlpHash raw;
     csh_Number := Uint64 (Number header) |}.

Fixpoint segments_of (pkt : list Header) (raws : list bytes)
  : list ChainSegmentHeader :=
  match pkt, raws with
  | header :: pkt', raw :: raws' => segment_of header raw :: segments_of pkt' raws'
  | _, _ => []
  end.

(** The stream as [blockHeaders66] and [blockHeaders] leave it in front of
    the first header: inside the packet, past the request id, inside the
    list of headers. *)
Definition headers_stream (data : bytes) : result Stream :=
  match Stream_List (NewStream data) with
  | Fail e => Fail e
  | Ok (_, s1) =>
      match Stream_Uint s1 with
      | Fail e => Fail e
      | Ok (_, s2) =>
          match Stream_List s2 with
          | Fail e => Fail e
          | Ok (_, s3) => Ok s3
          end
      end
  end.

(** The block numbers of a packet, as [blockHeaders] reads them. *)
Definition block_numbers (pkt : list Header) : list Z :=
  map (fun header => Uint64 (Number header)) pkt.

(** Every segment list handed to the header downloader, whichever entry. *)
Definition downloader_input (e : Event) : option (list ChainSegmentHeader) :=
  match e with
  | Ev c _ =>
      match c with
      | HdProcessHeaders segs _ _ => Some segs
      | HdProcessHeadersPOS segs _ _ => Some segs
      | _ => None
      end
  end.

(** The calls of the downloader branch of [blockHeaders]: everything between
    the two-pass decode and the closing [PeerMinBlock]. *)
Definition branch_call (e : Event) : option unit :=
  match e with
  | Ev c _ =>
      match c with
      | HdPOSSync | DbBeginTemporalRo | TimeNow
      | HdProcessHeaders _ _ _ | HdProcessHeadersPOS _ _ _
      | HdRequestMoreHeaders _ | SendHeaderRequest _
      | HdUpdateStats _ _ _ | HdUpdateRetryTime _ _ _
      | Penalize _ => Some tt
      | _ => None
      end
  end.

(** A selector that does not look at the calls of the penalty loop of
    [newBlock66]. *)
Definition blind_to_penalties {B : Type} (f : Event -> option B) : Prop :=
  (forall s p k r, f (Ev (PenalizePeer s p k) r) = None) /\
  (forall s r, f (Ev (SentryReady s) r) = None) /\
  (forall l m e r, f (Ev (Log l m e) r) = None).

(** What the branch of [newBlock66] without penalty announces: the block, when
    the node is not a mock, the terminal total difficulty has not passed and
    the first PoS height, if one was seen, is not below the block number. *)
Definition announced (cs : MultiClient) (firstPosSeen : option Z)
  (segments : list ChainSegmentHeader) : list (list Announce) :=
  match segments with
  | [] => []
  | seg0 :: _ =>
      if negb (IsMock cs) && negb (TerminalTotalDifficultyPassed cs) &&
         match firstPosSeen with
         | Some first => first >=? csh_Number seg0
         | None => true
         end
      then [[ {| ann_Hash := csh_Hash seg0; ann_Number := csh_Number seg0 |} ]]
      else []
  end.

(** A run that issued no penalty, neither by [PenalizePeer] nor through
    [MultiClient.Penalize]. *)
Definition unpenalized (tr : list Event) : Prop :=
  select PenalizePeer_call tr = [] /\ select Penalize_call tr = [].

(** The calls made after the first [PeerMinBlock] of a trace. *)
Fixpoint since_PeerMinBlock (tr : list Event) : list Event :=
  match tr with
  | [] => []
  | e :: tr' =>
      match PeerMinBlock_call e with
      | Some _ => tr'
      | None => since_PeerMinBlock tr'
      end
  end.

Definition ascending (segs : list ChainSegmentHeader) : Prop :=
  StronglySorted (fun a b => csh_Number a <= csh_Number b) segs.
Definition strictly_ascending (segs : list ChainSegmentHeader) : Prop :=
  StronglySorted (fun a b => csh_Number a < csh_Number b) segs.
Definition descending (segs : list ChainSegmentHeader) : Prop :=
  StronglySorted (fun a b => csh_Number a >= csh_Number b) segs.
Definition strictly_descending (segs : list ChainSegmentHeader) : Prop :=
  StronglySorted (fun a b => csh_Number a > csh_Number b) segs.

(** The header request that [newBlockHashes66] builds for an announce. *)
Definition header_request (requestId : Z) (announce : Announce)
  : GetBlockHeadersPacket66 :=
  {| gbh66_RequestId := Uint64 requestId;
     gbh66_Packet :=
       {| gbh_Amount := 1;
          gbh_Reverse := false;
          gbh_Skip := 0;
          gbh_Origin := {| hon_Hash := ann_Hash announce; hon_Number := 0 |} |} |}.

(** A send that the announce loop goes past: it succeeded, or the peer was
    not found. *)
Definition swallowed (reply : option error) : Prop :=
  match reply with
  | None => True
  | Some e => isPeerNotFoundErr e = true
  end.

(** The runs of the announce loop, with what the handler returns.  The
    announces are taken in order.  Each one is saved and looked up; a linked
    one ends there; an unlinked one draws a request id and has one header
    request sent to the announcing peer.  The loop stops, and the handler
    returns the error, at the first request that does not encode or whose
    send fails with an error other than peer-not-found. *)
Inductive served (sentry : SentryClient) (peer : H512)
  : list Announce -> list Event -> exit -> Prop :=
| served_nil : served sentry peer [] [] (Return None)
| served_linked : forall a rest tr ex,
    served sentry peer rest tr ex ->
    served sentry peer (a :: rest)
      (Ev (HdSaveExternalAnnounce (ann_Hash a)) tt ::
       Ev (HdHasLink (ann_Hash a)) true :: tr) ex
| served_request : forall a rest tr ex requestId b reply,
    EncodeToBytes_GetBlockHeadersPacket66 (header_request requestId a) = Ok b ->
    swallowed reply ->
    served sentry peer rest tr ex ->
    served sentry peer (a :: rest)
      (Ev (HdSaveExternalAnnounce (ann_Hash a)) tt ::
       Ev (HdHasLink (ann_Hash a)) false ::
       Ev RandUint64 requestId ::
       Ev (SendMessageById sentry peer GET_BLOCK_HEADERS_66 b) reply :: tr) ex
| served_encode_error : forall a rest requestId e,
    EncodeToBytes_GetBlockHeadersPacket66 (header_request requestId a) = Fail e ->
    served sentry peer (a :: rest)
      [Ev (HdSaveExternalAnnounce (ann_Hash a)) tt;
       Ev (HdHasLink (ann_Hash a)) false;
       Ev RandUint64 requestId]
      (Return (Some (ErrWrap "encode header request" e)))
| served_send_error : forall a rest requestId b e,
    EncodeToBytes_GetBlockHeadersPacket66 (header_request requestId a) = Ok b ->
    isPeerNotFoundErr e = false ->
    served sentry peer (a :: rest)
      [Ev (HdSaveExternalAnnounce (ann_Hash a)) tt;
       Ev (HdHasLink (ann_Hash a)) false;
       Ev RandUint64 requestId;
       Ev (SendMessageById sentry peer GET_BLOCK_HEADERS_66 b) (Some e)]
      (Return (Some (ErrWrap "send header request" e))).

(** The calls of the gate of [newBlockHashes66] when it lets the packet in. *)
Definition gate_open (gate : list Event) : Prop :=
  gate = [Ev HdInitialCycle false] \/
  gate = [Ev HdInitialCycle true; Ev HdFetchingNew true].

End Specification.

(** ** A small environment to run the handlers

    A codec over one-byte items: every byte of a payload is one item, its
    value is the number it carries and the byte itself is its raw encoding.
    A payload that starts with [0xff] is malformed.  Together with insertion
    sort and a scripted environment this runs the handlers on concrete
    messages. *)
Module Sample.
Local Open Scope string_scope.
Local Open Scope list_scope.
Local Open Scope Z_scope.

Definition number_of (b : byte) : Z := Z.of_N (Byte.to_N b).

Definition byte_of (z : Z) : byte :=
  match Byte.of_N (Z.to_N (z mod 256)) with
  | Some b => b
  | None => x00
  end.

Definition header_of (b : byte) : Header :=
  {| Number := number_of b; HeaderFields := [] |}.

Definition malformed (data : bytes) : bool :=
  match data with
  | xff :: _ => true
  | _ => false
  end.

Definition ErrExpectedList : error := ErrNew "rlp: expected input list".
Definition ErrEOL : error := ErrNew "rlp: end of list".
Definition ErrPeerNotFound : error := ErrNew "peer not found".
Definition ErrUnavailable : error := ErrNew "transport is closing".
Definition ErrStore : error := ErrNew "db closed".

Fixpoint root_message (e : error) : string :=
  match e with
  | ErrNew msg => msg
  | ErrWrap _ cause => root_message cause
  end.

Definition decode {A : Type} (f : bytes -> A) (data : bytes) : result A :=
  if malformed data then Fail ErrExpectedList else Ok (f data).

Definition pop (s : bytes) : result (bytes * bytes) :=
  match s with
  | [] => Fail ErrEOL
  | b :: s' => Ok ([b], s')
  end.

Definition toy_hash (raw : bytes) : Hash :=
  fold_left (fun acc b => acc * 257 + number_of b + 1) raw 0.

Fixpoint insert (le : Z -> Z -> bool) (x : ChainSegmentHeader)
  (l : list ChainSegmentHeader) : list ChainSegmentHeader :=
  match l with
  | [] => [x]
  | y :: l' =>
      if le (csh_Number x) (csh_Number y) then x :: y :: l'
      else y :: insert le x l'
  end.

Fixpoint isort (le : Z -> Z -> bool) (l : list ChainSegmentHeader)
  : list ChainSegmentHeader :=
  match l with
  | [] => []
  | x :: l' => insert le x (isort le l')
  end.

#[export] Instance byte_codec : Externals := {|
  DecodeBytes_NewBlockHashesPacket :=
    decode (map (fun b => {| ann_Hash := number_of b; ann_Number := number_of b |}));
  DecodeBytes_BlockHeadersPacket66 :=
    decode (fun data =>
      {| bh66_RequestId := number_of (hd x00 data);
         bh66_BlockHeadersPacket := map header_of (tl data) |});
  DecodeBytes_NewBlockPacket :=
    decode (fun data =>
      {| nb_Block := {| block_header := header_of (hd x00 data);
                        block_rawBody := tl data |};
         nb_TD := 0 |});
  DecodeBytes_BlockRawBodiesPacket66 :=
    decode (fun data =>
      {| brb66_RequestId := number_of (hd x00 data);
         brb66_Packet :=
           map (fun b => {| rb_Transactions := [[b]];
                            rb_Uncles := [];
                            rb_Withdrawals := [] |}) (tl data) |});
  DecodeBytes_GetBlockHeadersPacket66 :=
    decode (fun data =>
      {| gbh66_RequestId := number_of (hd x00 data);
         gbh66_Packet :=
           {| gbh_Origin := {| hon_Hash := 0;
                               hon_Number := number_of (hd x00 (tl data)) |};
              gbh_Amount := number_of (hd x00 (tl (tl data)));
              gbh_Skip := 0;
              gbh_Reverse := false |} |});
  DecodeBytes_GetBlockBodiesPacket66 :=
    decode (fun data =>
      {| gbb66_RequestId := number_of (hd x00 data);
         gbb66_Packet := map number_of (tl data) |});
  DecodeBytes_GetReceiptsPacket66 :=
    decode (fun data =>
      {| gr66_RequestId := number_of (hd x00 data);
         gr66_Packet := map number_of (tl data) |});
  EncodeToBytes_GetBlockHeadersPacket66 := fun p =>
    Ok [byte_of (gbh66_RequestId p);
        byte_of (hon_Hash (gbh_Origin (gbh66_Packet p)));
        byte_of (gbh_Amount (gbh66_Packet p));
        byte_of (gbh_Skip (gbh66_Packet p));
        if gbh_Reverse (gbh66_Packet p) then x01 else x00];
  EncodeToBytes_BlockHeadersPacket66 := fun p =>
    Ok (byte_of (bh66_RequestId p)
        :: map (fun h => byte_of (Number h)) (bh66_BlockHeadersPacket p));
  EncodeToBytes_BlockBodiesRLPPacket66 := fun p =>
    Ok (byte_of (bbr66_RequestId p) :: List.concat (bbr66_Packet p));
  EncodeToBytes_ReceiptsRLPPacket66 := fun p =>
    Ok (byte_of (rr66_RequestId p) :: List.concat (rr66_Packet p));
  Stream := bytes;
  NewStream := fun data => data;
  Stream_List := fun s =>
    if malformed s then Fail ErrExpectedList
    else Ok (Z.of_nat (List.length s), s);
  Stream_Uint := fun s =>
    match s with
    | [] => Fail ErrEOL
    | b :: s' => Ok (number_of b, s')
    end;
  Stream_Raw := pop;
  IsInvalidRLPError := fun e => String.prefix "rlp:" (root_message e);
  isPeerNotFoundErr := fun e => String.eqb (root_message e) "peer not found";
  RawRlpHash := toy_hash;
  ConvertH512ToPeerID := fun h => h;
  NewBlockPacket_SanityCheck := fun _ => None;
  Block_HashCheck := fun _ _ => None;
  HeadersSort := isort Z.leb;
  HeadersReverseSort := isort Z.geb
|}.

(** A scripted environment: the same answer to a command whatever was
    called before. *)
Record Script : Type := mkScript {
  s_initialCycle : bool;
  s_fetchingNew : bool;
  s_hasLink : Hash -> bool;
  s_posSync : bool;
  s_canRequestMore : bool;
  s_posError : option error;
  s_segment : bytes -> Header -> list ChainSegmentHeader * Penalty * option error;
  s_firstPoSHeight : option Z;
  s_sendError : option error;
  s_penalizeError : option error;
  s_ready : bool;
  s_beginError : option error;
  s_view : result (list Header)
}.

Definition scripted (sc : Script) : Oracle :=
  fun R _ c =>
    match c in Cmd R return R with
    | HdInitialCycle => s_initialCycle sc
    | HdFetchingNew => s_fetchingNew sc
    | HdSaveExternalAnnounce _ => tt
    | HdHasLink h => s_hasLink sc h
    | HdPOSSync => s_posSync sc
    | HdProcessHeaders _ _ _ => s_canRequestMore sc
    | HdProcessHeadersPOS _ _ _ => ([], s_posError sc)
    | HdRequestMoreHeaders _ => (None, [])
    | HdUpdateStats _ _ _ => tt
    | HdUpdateRetryTime _ _ _ => tt
    | HdSingleHeaderAsSegment raw h _ => s_segment sc raw h
    | HdFirstPoSHeight => s_firstPoSHeight sc
    | BdAddToPrefetch _ _ => tt
    | BdDeliverBodies _ _ _ _ _ => tt
    | SendMessageById _ _ _ _ => s_sendError sc
    | PenalizePeer _ _ _ => s_penalizeError sc
    | PeerMinBlock _ _ _ => None
    | SentryReady _ => s_ready sc
    | Penalize _ => tt
    | SendHeaderRequest _ => (0, false)
    | PropagateNewBlockHashes _ => tt
    | DbBeginTemporalRo =>
        match s_beginError sc with Some e => Fail e | None => Ok 1 end
    | DbBeginRo =>
        match s_beginError sc with Some e => Fail e | None => Ok 1 end
    | TxRollback _ => tt
    | DbView_AnswerGetBlockHeadersQuery _ => s_view sc
    | AnswerGetBlockBodiesQuery _ _ => []
    | AnswerGetReceiptsQueryCacheOnly _ => (None, false, None)
    | AnswerGetReceiptsQuery _ _ _ => Ok []
    | SemAcquire => None
    | SemRelease => tt
    | TimeNow => 0
    | RandUint64 => 7
    | Log _ _ _ => tt
    end.

(** The segment that the header downloader makes of one header. *)
Definition one_segment (raw : bytes) (h : Header)
  : list ChainSegmentHeader * Penalty * option error :=
  ([segment_of h raw], NoPenalty, None).

(** The downloader refuses the header. *)
Definition refused (raw : bytes) (h : Header)
  : list ChainSegmentHeader * Penalty * option error :=
  ([], OtherPenalty 1, None).

(** A pre-merge node in steady state with every collaborator healthy. *)
Definition calm : Script :=
  {| s_initialCycle := false;
     s_fetchingNew := true;
     s_hasLink := fun _ => false;
     s_posSync := false;
     s_canRequestMore := false;
     s_posError := None;
     s_segment := one_segment;
     s_firstPoSHeight := None;
     s_sendError := None;
     s_penalizeError := None;
     s_ready := true;
     s_beginError := None;
     s_view := Ok [] |}.

(** Variations of [calm]: one answer changes. *)
Definition with_posSync (b : bool) (sc : Script) : Script :=
  {| s_initialCycle := s_initialCycle sc; s_fetchingNew := s_fetchingNew sc;
     s_hasLink := s_hasLink sc; s_posSync := b;
     s_canRequestMore := s_canRequestMore sc; s_posError := s_posError sc;
     s_segment := s_segment sc; s_firstPoSHeight := s_firstPoSHeight sc;
     s_sendError := s_sendError sc; s_penalizeError := s_penalizeError sc;
     s_ready := s_ready sc; s_beginError := s_beginError sc;
     s_view := s_view sc |}.

Definition with_firstPoSHeight (h : option Z) (sc : Script) : Script :=
  {| s_initialCycle := s_initialCycle sc; s_fetchingNew := s_fetchingNew sc;
     s_hasLink := s_hasLink sc; s_posSync := s_posSync sc;
     s_canRequestMore := s_canRequestMore sc; s_posError := s_posError sc;
     s_segment := s_segment sc; s_firstPoSHeight := h;
     s_sendError := s_sendError sc; s_penalizeError := s_penalizeError sc;
     s_ready := s_ready sc; s_beginError := s_beginError sc;
     s_view := s_view sc |}.

Definition with_sendError (e : option error) (sc : Script) : Script :=
  {| s_initialCycle := s_initialCycle sc; s_fetchingNew := s_fetchingNew sc;
     s_hasLink := s_hasLink sc; s_posSync := s_posSync sc;
     s_canRequestMore := s_canRequestMore sc; s_posError := s_posError sc;
     s_segment := s_segment sc; s_firstPoSHeight := s_firstPoSHeight sc;
     s_sendError := e; s_penalizeError := s_penalizeError sc;
     s_ready := s_ready sc; s_beginError := s_beginError sc;
     s_view := s_view sc |}.

Definition with_penalizeError (e : option error) (sc : Script) : Script :=
  {| s_initialCycle := s_initialCycle sc; s_fetchingNew := s_fetchingNew sc;
     s_hasLink := s_hasLink sc; s_posSync := s_posSync sc;
     s_canRequestMore := s_canRequestMore sc; s_posError := s_posError sc;
     s_segment := s_segment sc; s_firstPoSHeight := s_firstPoSHeight sc;
     s_sendError := s_sendError sc; s_penalizeError := e;
     s_ready := s_ready sc; s_beginError := s_beginError sc;
     s_view := s_view sc |}.

Definition with_view (v : result (list Header)) (sc : Script) : Script :=
  {| s_initialCycle := s_initialCycle sc; s_fetchingNew := s_fetchingNew sc;
     s_hasLink := s_hasLink sc; s_posSync := s_posSync sc;
     s_canRequestMore := s_canRequestMore sc; s_posError := s_posError sc;
     s_segment := s_segment sc; s_firstPoSHeight := s_firstPoSHeight sc;
     s_sendError := s_sendError sc; s_penalizeError := s_penalizeError sc;
     s_ready := s_ready sc; s_beginError := s_beginError sc;
     s_view := v |}.

Definition with_segment
  (f : bytes -> Header -> list ChainSegmentHeader * Penalty * option error)
  (sc : Script) : Script :=
  {| s_initialCycle := s_initialCycle sc; s_fetchingNew := s_fetchingNew sc;
     s_hasLink := s_hasLink sc; s_posSync := s_posSync sc;
     s_canRequestMore := s_canRequestMore sc; s_posError := s_posError sc;
     s_segment := f; s_firstPoSHeight := s_firstPoSHeight sc;
     s_sendError := s_sendError sc; s_penalizeError := s_penalizeError sc;
     s_ready := s_ready sc; s_beginError := s_beginError sc;
     s_view := s_view sc |}.

Definition node : MultiClient :=
  {| IsMock := false;
     sentries := [ {| sentry_index := 0; sentry_direct := false |} ];
     TerminalTotalDifficultyPassed := false;
     logPeerInfo := false;
     sendHeaderRequestsToMultiplePeers := false;
     disableBlockDownload := false |}.

Definition sentry0 : SentryClient := {| sentry_index := 0; sentry_direct := false |}.

Definition peer : H512 := 77.

Definition message (id : MessageId) (data : bytes) : InboundMessage :=
  {| in_Id := id; in_Data := data; in_PeerId := peer |}.

(** Messages: the first byte of a request or response is its request id. *)
Definition headers_8_11_10 : InboundMessage :=
  message BLOCK_HEADERS_66 [x01; x08; x0b; x0a].
Definition headers_5_5 : InboundMessage :=
  message BLOCK_HEADERS_66 [x01; x05; x05].
Definition new_block_5 : InboundMessage :=
  message NEW_BLOCK_66 [x05; x00].
Definition header_query_7 : InboundMessage :=
  message GET_BLOCK_HEADERS_66 [x07; x09; x0a].
Definition bodies_query_7 : InboundMessage :=
  message GET_BLOCK_BODIES_66 [x07; x09; x0a].
Definition receipts_query_7 : InboundMessage :=
  message GET_RECEIPTS_66 [x07; x09; x0a].
Definition announces_1_2 : InboundMessage :=
  message NEW_BLOCK_HASHES_66 [x01; x02].
Definition garbage_bodies : InboundMessage :=
  message BLOCK_BODIES_66 [xff; xc0].

End Sample.

(** * Properties *)

(** ** Running programs *)

(** [cases_of H] splits the run recorded in [H] on every answer and every
    flag that the program inspects. *)
Ltac cases_of H :=
  repeat (match type of H with
          | context [match ?x with _ => _ end] => destruct x eqn:?
          | context [if ?x then _ else _] => destruct x eqn:?
          end; cbn [exec fst snd bind deferring] in H).

(** [run_as res H] names the run under study. *)
Ltac run_as res H :=
  unfold trace, value in *;
  match goal with
  | |- context [exec ?o ?h ?p] => remember (exec o h p) as res eqn:H
  | H' : context [exec ?o ?h ?p] |- _ => remember (exec o h p) as res eqn:H
  end.

Lemma exec_bind : forall (A B : Type) (p : Prog A) (f : A -> Prog B) o hist,
  exec o hist (bind p f) =
  (fst (exec o (hist ++ snd (exec o hist p)) (f (fst (exec o hist p)))),
   snd (exec o hist p) ++
   snd (exec o (hist ++ snd (exec o hist p)) (f (fst (exec o hist p))))).
Proof.
  induction p as [a | R c k IH]; intros f o hist; simpl.
  - rewrite app_nil_r. destruct (exec o hist (f a)); reflexivity.
  - rewrite IH. simpl. rewrite <- app_assoc. reflexivity.
Qed.

Lemma value_bind : forall (A B : Type) (p : Prog A) (f : A -> Prog B) o hist,
  value o hist (bind p f) = value o (hist ++ trace o hist p) (f (value o hist p)).
Proof. intros. unfold value, trace. rewrite exec_bind. reflexivity. Qed.

Lemma trace_bind : forall (A B : Type) (p : Prog A) (f : A -> Prog B) o hist,
  trace o hist (bind p f) =
  trace o hist p ++ trace o (hist ++ trace o hist p) (f (value o hist p)).
Proof. intros. unfold value, trace. rewrite exec_bind. reflexivity. Qed.

Lemma select_app : forall (B : Type) (f : Event -> option B) tr1 tr2,
  select f (tr1 ++ tr2) = select f tr1 ++ select f tr2.
Proof. intros. unfold select. apply flat_map_app. Qed.

(** ** Lists of block numbers *)

Lemma fold_max_ge_start : forall (l : list Z) (start : Z),
  start <= fold_left Z.max l start.
Proof.
  induction l as [| x l IH]; intros start; simpl; [ lia | ].
  specialize (IH (Z.max start x)). lia.
Qed.

Lemma fold_max_upper : forall (l : list Z) (start : Z),
  Forall (fun n => n <= fold_left Z.max l start) l.
Proof.
  induction l as [| x l IH]; intros start; simpl; constructor.
  - pose proof (fold_max_ge_start l (Z.max start x)). lia.
  - apply IH.
Qed.

Lemma fold_max_attained : forall (l : list Z) (start : Z),
  fold_left Z.max l start = start \/ In (fold_left Z.max l start) l.
Proof.
  induction l as [| x l IH]; intros start; simpl; [ auto | ].
  destruct (IH (Z.max start x)) as [Heq | Hin]; [ | auto ].
  rewrite Heq. destruct (Z.max_spec start x) as [[_ ->] | [_ ->]]; auto.
Qed.

Lemma Uint64_nonneg : forall z, 0 <= Uint64 z.
Proof.
  intros z. unfold Uint64, uint64_modulus.
  apply Z.mod_pos_bound. reflexivity.
Qed.

(** For a packet that is not empty, the loop's [highestBlock] is the greatest
    block number of the packet. *)
Lemma highest_is_maximum : forall pkt : list Header,
  pkt <> [] ->
  In (fold_left Z.max (block_numbers pkt) 0) (block_numbers pkt) /\
  Forall (fun n => n <= fold_left Z.max (block_numbers pkt) 0) (block_numbers pkt).
Proof.
  intros pkt Hne. split; [ | apply fold_max_upper ].
  destruct (fold_max_attained (block_numbers pkt) 0) as [Heq | Hin]; [ | exact Hin ].
  rewrite Heq. destruct pkt as [| header rest]; [ congruence | ].
  pose proof (fold_max_upper (block_numbers (header :: rest)) 0) as Hup.
  rewrite Heq in Hup. simpl in Hup. inversion Hup as [| ? ? Hle Hrest]; subst.
  clear Hup. pose proof (Uint64_nonneg (Number header)) as Hnn.
  assert (Uint64 (Number header) = 0) as H0 by lia.
  simpl. left. exact H0.
Qed.

Lemma StronglySorted_strict : forall (A : Type) (key : A -> Z) (l : list A),
  StronglySorted (fun a b => key a <= key b) l ->
  NoDup (map key l) ->
  StronglySorted (fun a b => key a < key b) l.
Proof.
  induction l as [| x l IH]; intros Hs Hnd; [ constructor | ].
  inversion Hs as [| ? ? Hs' Hall]; subst.
  simpl in Hnd. inversion Hnd as [| ? ? Hnotin Hnd']; subst.
  constructor; [ auto | ].
  rewrite Forall_forall in *. intros y Hy.
  specialize (Hall y Hy).
  assert (key x <> key y) as Hneq.
  { intros Heq. apply Hnotin. rewrite Heq. apply in_map. exact Hy. }
  lia.
Qed.

Lemma StronglySorted_strict_rev : forall (A : Type) (key : A -> Z) (l : list A),
  StronglySorted (fun a b => key a >= key b) l ->
  NoDup (map key l) ->
  StronglySorted (fun a b => key a > key b) l.
Proof.
  induction l as [| x l IH]; intros Hs Hnd; [ constructor | ].
  inversion Hs as [| ? ? Hs' Hall]; subst.
  simpl in Hnd. inversion Hnd as [| ? ? Hnotin Hnd']; subst.
  constructor; [ auto | ].
  rewrite Forall_forall in *. intros y Hy.
  specialize (Hall y Hy).
  assert (key x <> key y) as Hneq.
  { intros Heq. apply Hnotin. rewrite Heq. apply in_map. exact Hy. }
  lia.
Qed.

(** ** BlockHeaders66 *)

Section HeaderIngest.
Context {X : Externals}.

Lemma Stream_Raws_length : forall n s raws,
  Stream_Raws n s = Ok raws -> List.length raws = n.
Proof.
  induction n as [| n IH]; intros s raws H; simpl in H.
  - injection H as <-. reflexivity.
  - destruct (Stream_Raw s) as [[raw s'] | e]; [ | discriminate ].
    destruct (Stream_Raws n s') as [raws' | e] eqn:Hrest; [ | discriminate ].
    injection H as <-. simpl. f_equal. eapply IH. exact Hrest.
Qed.

Lemma segments_of_hash : forall pkt raws,
  Forall (fun h => csh_Hash h = RawRlpHash (csh_HeaderRaw h)) (segments_of pkt raws).
Proof.
  induction pkt as [| header rest IH]; intros raws; simpl; [ constructor | ].
  destruct raws as [| raw raws]; constructor; [ reflexivity | apply IH ].
Qed.

Lemma segments_of_headers : forall pkt raws,
  List.length raws = List.length pkt ->
  map csh_Header (segments_of pkt raws) = pkt /\
  map csh_HeaderRaw (segments_of pkt raws) = raws /\
  map csh_Number (segments_of pkt raws) = block_numbers pkt.
Proof.
  induction pkt as [| header rest IH]; intros raws Hlen.
  - destruct raws; [ auto | discriminate ].
  - destruct raws as [| raw raws]; [ discriminate | ].
    simpl in Hlen. injection Hlen as Hlen.
    destruct (IH raws Hlen) as (H1 & H2 & H3).
    simpl. rewrite H1, H2, H3. auto.
Qed.

(** The loop succeeds exactly by reading one raw item per typed header; it
    then leaves the segment headers in packet order and the greatest block
    number seen. *)
Lemma blockHeaders_loop_ok : forall pkt s highestBlock csHeaders hb cs',
  blockHeaders_loop pkt s highestBlock csHeaders = Ok (hb, cs') ->
  exists raws,
    Stream_Raws (List.length pkt) s = Ok raws /\
    cs' = csHeaders ++ segments_of pkt raws /\
    hb = fold_left Z.max (block_numbers pkt) highestBlock.
Proof.
  induction pkt as [| header rest IH]; intros s highestBlock csHeaders hb cs' Hloop;
    simpl in Hloop.
  - injection Hloop as <- <-. exists []. simpl. rewrite app_nil_r. auto.
  - destruct (Stream_Raw s) as [[raw s'] | e] eqn:Hraw; [ | discriminate ].
    apply IH in Hloop. destruct Hloop as (raws & Hraws & -> & ->).
    exists (raw :: raws). simpl. rewrite Hraw, Hraws. split; [ reflexivity | ].
    split.
    + rewrite <- app_assoc. reflexivity.
    + f_equal. destruct (highestBlock <? Uint64 (Number header)) eqn:Hlt.
      * apply Z.ltb_lt in Hlt. lia.
      * apply Z.ltb_ge in Hlt. lia.
Qed.

(** Every run of [blockHeaders]: either nothing reaches the downloader and no
    [PeerMinBlock] is sent, or the segment headers built from the packet are
    sorted for the sync mode and handed over once; [PeerMinBlock] then follows
    once, unless [ProcessHeadersPOS] failed. *)
Lemma blockHeaders_run : forall o hist cs pkt s peerID sentry,
  let tr := trace o hist (blockHeaders cs pkt s peerID sentry) in
  let v := value o hist (blockHeaders cs pkt s peerID sentry) in
  (select downloader_input tr = [] /\ select PeerMinBlock_call tr = []) \/
  exists n s1 raws,
    pkt <> [] /\ disableBlockDownload cs = false /\
    Stream_List s = Ok (n, s1) /\
    Stream_Raws (List.length pkt) s1 = Ok raws /\
    let built := segments_of pkt raws in
    let peer := ConvertH512ToPeerID peerID in
    let highest := fold_left Z.max (block_numbers pkt) 0 in
    (select POSSync_answer tr = [false] /\
     select downloader_input tr = [HeadersSort built] /\
     select ProcessHeaders_call tr = [(HeadersSort built, false, peer)] /\
     select ProcessHeadersPOS_call tr = [] /\
     v = Return None /\
     select PeerMinBlock_call tr = [(sentry, peerID, highest)] /\
     select branch_call (since_PeerMinBlock tr) = []) \/
    (select POSSync_answer tr = [true] /\
     select downloader_input tr = [HeadersReverseSort built] /\
     select ProcessHeaders_call tr = [] /\
     (exists tx,
        select ProcessHeadersPOS_call tr = [(HeadersReverseSort built, tx, peer)]) /\
     ((v = Return None /\
       select PeerMinBlock_call tr = [(sentry, peerID, highest)] /\
       select branch_call (since_PeerMinBlock tr) = []) \/
      (exists e, v = Return (Some e) /\ select PeerMinBlock_call tr = []))).
Proof.
  intros o hist cs pkt s peerID sentry tr v. subst tr v.
  run_as res Hres. unfold blockHeaders in Hres.
  destruct (disableBlockDownload cs) eqn:Hdis;
    [ subst res; left; split; reflexivity | ].
  destruct pkt as [| header rest] eqn:Hpkt;
    [ subst res; left; split; reflexivity | ].
  rewrite <- Hpkt in *.
  replace (List.length pkt =? 0)%nat with false in Hres by (subst pkt; reflexivity).
  destruct (Stream_List s) as [[n s1] | e] eqn:Hlist;
    [ | subst res; left; split; reflexivity ].
  destruct (blockHeaders_loop pkt s1 0 []) as [[hb built] | e] eqn:Hloop;
    [ | subst res; left; split; reflexivity ].
  apply blockHeaders_loop_ok in Hloop. destruct Hloop as (raws & Hraws & -> & ->).
  cbn [app] in Hres. unfold sendPeerMinBlock in Hres.
  cbn [exec fst snd bind deferring] in Hres.
  cases_of Hres; subst res; cbn;
    try (left; split; reflexivity);
    right; exists n, s1, raws; (repeat split; try congruence);
    try (left; repeat split; reflexivity);
    try (right; repeat split; try reflexivity; eauto).
  all: right; repeat split; try reflexivity; eauto.
Qed.

Lemma blockHeaders66_run : forall o hist cs inmsg sentry,
  let tr := trace o hist (blockHeaders66 cs inmsg sentry) in
  let v := value o hist (blockHeaders66 cs inmsg sentry) in
  (select downloader_input tr = [] /\ select PeerMinBlock_call tr = []) \/
  exists pkt s raws,
    DecodeBytes_BlockHeadersPacket66 (in_Data inmsg) = Ok pkt /\
    bh66_BlockHeadersPacket pkt <> [] /\ disableBlockDownload cs = false /\
    headers_stream (in_Data inmsg) = Ok s /\
    Stream_Raws (List.length (bh66_BlockHeadersPacket pkt)) s = Ok raws /\
    let built := segments_of (bh66_BlockHeadersPacket pkt) raws in
    let peer := ConvertH512ToPeerID (in_PeerId inmsg) in
    let highest := fold_left Z.max (block_numbers (bh66_BlockHeadersPacket pkt)) 0 in
    (select POSSync_answer tr = [false] /\
     select downloader_input tr = [HeadersSort built] /\
     select ProcessHeaders_call tr = [(HeadersSort built, false, peer)] /\
     select ProcessHeadersPOS_call tr = [] /\
     v = Return None /\
     select PeerMinBlock_call tr = [(sentry, in_PeerId inmsg, highest)] /\
     select branch_call (since_PeerMinBlock tr) = []) \/
    (select POSSync_answer tr = [true] /\
     select downloader_input tr = [HeadersReverseSort built] /\
     select ProcessHeaders_call tr = [] /\
     (exists tx,
        select ProcessHeadersPOS_call tr = [(HeadersReverseSort built, tx, peer)]) /\
     ((v = Return None /\
       select PeerMinBlock_call tr = [(sentry, in_PeerId inmsg, highest)] /\
       select branch_call (since_PeerMinBlock tr) = []) \/
      (exists e, v = Return (Some e) /\ select PeerMinBlock_call tr = []))).
Proof.
  intros o hist cs inmsg sentry.
  unfold blockHeaders66, headers_stream.
  destruct (DecodeBytes_BlockHeadersPacket66 (in_Data inmsg)) as [pkt | e];
    [ | left; split; reflexivity ].
  destruct (Stream_List (NewStream (in_Data inmsg))) as [[n1 s1] | e];
    [ | left; split; reflexivity ].
  destruct (Stream_Uint s1) as [[n2 s2] | e]; [ | left; split; reflexivity ].
  destruct (blockHeaders_run o hist cs (bh66_BlockHeadersPacket pkt) s2
              (in_PeerId inmsg) sentry) as [Hnone | (n & s3 & raws & Hrun)].
  - left. exact Hnone.
  - right. exists pkt, s3, raws.
    destruct Hrun as (Hne & Hdis & Hlist & Hraws & Hmodes).
    rewrite Hlist. repeat split; auto.
Qed.

(** Under the contract of [rlp.Stream], the raw headers are consecutive
    slices of the message bytes. *)
Lemma Stream_Raws_unread : forall (unread : Stream -> bytes),
  (forall s raw s', Stream_Raw s = Ok (raw, s') -> unread s = raw ++ unread s') ->
  forall n s raws,
    Stream_Raws n s = Ok raws ->
    exists after, unread s = List.concat raws ++ after.
Proof.
  intros unread Hraw. induction n as [| n IH]; intros s raws H; simpl in H.
  - injection H as <-. exists (unread s). reflexivity.
  - destruct (Stream_Raw s) as [[raw s'] | e] eqn:Hr; [ | discriminate ].
    destruct (Stream_Raws n s') as [raws' | e] eqn:Hrest; [ | discriminate ].
    injection H as <-. destruct (IH _ _ Hrest) as [after Hafter].
    exists after. rewrite (Hraw _ _ _ Hr), Hafter. simpl.
    rewrite app_assoc. reflexivity.
Qed.

Lemma blockHeaders66_raws_are_slices : forall (SL : StreamLaws) data s n raws,
  headers_stream data = Ok s ->
  Stream_Raws n s = Ok raws ->
  exists before after, data = before ++ List.concat raws ++ after.
Proof.
  intros [(unread & Hnew & Hlist & Huint & Hraw)] data s n raws Hs Hraws.
  unfold headers_stream in Hs.
  destruct (Stream_List (NewStream data)) as [[n1 s1] | e] eqn:H1; [ | discriminate ].
  destruct (Stream_Uint s1) as [[n2 s2] | e] eqn:H2; [ | discriminate ].
  destruct (Stream_List s2) as [[n3 s3] | e] eqn:H3; [ | discriminate ].
  injection Hs as <-.
  destruct (Hlist _ _ _ H1) as [head1 E1].
  destruct (Huint _ _ _ H2) as [item E2].
  destruct (Hlist _ _ _ H3) as [head2 E3].
  destruct (Stream_Raws_unread unread Hraw _ _ Hraws) as [after E4].
  exists (head1 ++ item ++ head2), after.
  rewrite <- (Hnew data), E1, E2, E3, E4.
  rewrite <- !app_assoc. reflexivity.
Qed.

End HeaderIngest.

Section HeaderIngestClaims.
Context {X : Externals}.

(** C1.  Whatever [blockHeaders66] hands to the header downloader is, up to
    the order, the list of segment headers built from the typed headers of
    the packet and the raw items that the streaming pass reads from the same
    message bytes, one per header; these raw items are consecutive slices of
    the message bytes.  Each segment header has [Hash = RawRlpHash HeaderRaw],
    the keccak of the raw bytes as they were read, and no typed header is
    encoded again to obtain it. *)
Theorem blockHeaders66_hash_of_raw_bytes :
  forall (L : SortLaws) (SL : StreamLaws) o hist cs inmsg sentry segs,
    In segs (select downloader_input (trace o hist (blockHeaders66 cs inmsg sentry))) ->
    exists pkt s raws,
      DecodeBytes_BlockHeadersPacket66 (in_Data inmsg) = Ok pkt /\
      headers_stream (in_Data inmsg) = Ok s /\
      Stream_Raws (List.length (bh66_BlockHeadersPacket pkt)) s = Ok raws /\
      (exists before after, in_Data inmsg = before ++ List.concat raws ++ after) /\
      map csh_Header (segments_of (bh66_BlockHeadersPacket pkt) raws)
        = bh66_BlockHeadersPacket pkt /\
      map csh_HeaderRaw (segments_of (bh66_BlockHeadersPacket pkt) raws) = raws /\
      Permutation (segments_of (bh66_BlockHeadersPacket pkt) raws) segs /\
      Forall (fun h => csh_Hash h = RawRlpHash (csh_HeaderRaw h)) segs.
Proof.
  intros L SL o hist cs inmsg sentry segs Hin.
  destruct (blockHeaders66_run o hist cs inmsg sentry)
    as [[Hnone _] | (pkt & s & raws & Hdec & _ & _ & Hs & Hraws & Hmodes)].
  - rewrite Hnone in Hin. destruct Hin.
  - exists pkt, s, raws.
    pose proof (Stream_Raws_length _ _ Hraws) as Hlen.
    destruct (segments_of_headers (bh66_BlockHeadersPacket pkt) raws Hlen)
      as (Hheaders & Hrawsmap & _).
    assert (Permutation (segments_of (bh66_BlockHeadersPacket pkt) raws) segs)
      as Hperm.
    { cbv zeta in Hmodes.
      destruct Hmodes as [(_ & Hinput & _) | (_ & Hinput & _)];
        rewrite Hinput in Hin; destruct Hin as [<- | []].
      - apply HeadersSort_perm.
      - apply HeadersReverseSort_perm. }
    repeat split; auto.
    + eapply blockHeaders66_raws_are_slices; eassumption.
    + eapply Permutation_Forall; [ exact Hperm | apply segments_of_hash ].
Qed.

(** C2, as the code has it.  The segment headers handed to the downloader are
    those built from the packet, sorted by block number: ascending in
    pre-merge mode ([ProcessHeaders]) and descending in post-merge mode
    ([ProcessHeadersPOS]).  Equal block numbers stay next to each other; the
    order is strict when the block numbers of the packet are pairwise
    distinct. *)
Theorem blockHeaders66_sorted_for_downloader :
  forall (L : SortLaws) o hist cs inmsg sentry segs,
    let tr := trace o hist (blockHeaders66 cs inmsg sentry) in
    In segs (select downloader_input tr) ->
    exists pkt s raws,
      DecodeBytes_BlockHeadersPacket66 (in_Data inmsg) = Ok pkt /\
      headers_stream (in_Data inmsg) = Ok s /\
      Stream_Raws (List.length (bh66_BlockHeadersPacket pkt)) s = Ok raws /\
      Permutation (segments_of (bh66_BlockHeadersPacket pkt) raws) segs /\
      ((select POSSync_answer tr = [false] /\
        (exists peer, select ProcessHeaders_call tr = [(segs, false, peer)]) /\
        select ProcessHeadersPOS_call tr = [] /\
        ascending segs /\
        (NoDup (block_numbers (bh66_BlockHeadersPacket pkt)) ->
         strictly_ascending segs)) \/
       (select POSSync_answer tr = [true] /\
        (exists tx peer, select ProcessHeadersPOS_call tr = [(segs, tx, peer)]) /\
        select ProcessHeaders_call tr = [] /\
        descending segs /\
        (NoDup (block_numbers (bh66_BlockHeadersPacket pkt)) ->
         strictly_descending segs))).
Proof.
  intros L o hist cs inmsg sentry segs tr Hin. subst tr.
  destruct (blockHeaders66_run o hist cs inmsg sentry)
    as [[Hnone _] | (pkt & s & raws & Hdec & _ & _ & Hs & Hraws & Hmodes)].
  - rewrite Hnone in Hin. destruct Hin.
  - exists pkt, s, raws.
    pose proof (Stream_Raws_length _ _ Hraws) as Hlen.
    destruct (segments_of_headers (bh66_BlockHeadersPacket pkt) raws Hlen)
      as (_ & _ & Hnumbers).
    cbv zeta in Hmodes.
    destruct Hmodes as [(Hpos & Hinput & Hcall & Hnopos & _)
                       | (Hpos & Hinput & Hnocall & [tx Hcall] & _)];
      rewrite Hinput in Hin; destruct Hin as [<- | []].
    + pose proof (HeadersSort_perm
                    (segments_of (bh66_BlockHeadersPacket pkt) raws)) as Hperm.
      repeat split; auto. left. repeat split; eauto.
      * apply HeadersSort_sorted.
      * intros Hnd. apply StronglySorted_strict; [ apply HeadersSort_sorted | ].
        eapply Permutation_NoDup; [ apply Permutation_map; exact Hperm | ].
        rewrite Hnumbers. exact Hnd.
    + pose proof (HeadersReverseSort_perm
                    (segments_of (bh66_BlockHeadersPacket pkt) raws)) as Hperm.
      repeat split; auto. right. repeat split; eauto.
      * apply HeadersReverseSort_sorted.
      * intros Hnd.
        apply StronglySorted_strict_rev; [ apply HeadersReverseSort_sorted | ].
        eapply Permutation_NoDup; [ apply Permutation_map; exact Hperm | ].
        rewrite Hnumbers. exact Hnd.
Qed.

(** C8.  When the downloader branch of [blockHeaders66] has completed (the
    segment headers were handed over and the handler returns [nil]), the
    trace holds exactly one [PeerMinBlock] call: on the sentry that delivered
    the message, for the peer that sent it, with the greatest block number of
    the packet; no call of the downloader branch comes after it. *)
Theorem blockHeaders66_peer_min_block :
  forall o hist cs inmsg sentry,
    let tr := trace o hist (blockHeaders66 cs inmsg sentry) in
    select downloader_input tr <> [] ->
    value o hist (blockHeaders66 cs inmsg sentry) = Return None ->
    exists pkt m,
      DecodeBytes_BlockHeadersPacket66 (in_Data inmsg) = Ok pkt /\
      bh66_BlockHeadersPacket pkt <> [] /\
      select PeerMinBlock_call tr = [(sentry, in_PeerId inmsg, m)] /\
      In m (block_numbers (bh66_BlockHeadersPacket pkt)) /\
      Forall (fun n => n <= m) (block_numbers (bh66_BlockHeadersPacket pkt)) /\
      select branch_call (since_PeerMinBlock tr) = [].
Proof.
  intros o hist cs inmsg sentry tr Hinput Hnil. subst tr.
  destruct (blockHeaders66_run o hist cs inmsg sentry)
    as [[Hnone _] | (pkt & s & raws & Hdec & Hne & _ & Hs & Hraws & Hmodes)].
  - congruence.
  - exists pkt, (fold_left Z.max (block_numbers (bh66_BlockHeadersPacket pkt)) 0).
    destruct (highest_is_maximum Hne) as [Hmax Hupper].
    cbv zeta in Hmodes.
    destruct Hmodes as [(_ & _ & _ & _ & _ & Hpmb & Hafter)
                       | (_ & _ & _ & _ & [(_ & Hpmb & Hafter) | (e & Herr & _)])].
    + repeat split; auto.
    + repeat split; auto.
    + congruence.
Qed.

End HeaderIngestClaims.

(** ** NewBlockHashes66 *)

Section Announces.
Context {X : Externals}.

(** Every run of the announce loop is one of the runs of [served]. *)
Lemma newBlockHashes66_loop_served : forall request o hist req sentry,
  served sentry (in_PeerId req) request
    (trace o hist (newBlockHashes66_loop req sentry request))
    (value o hist (newBlockHashes66_loop req sentry request)).
Proof.
  induction request as [| announce rest IH]; intros o hist req sentry.
  - constructor.
  - unfold value, trace in *. cbn [newBlockHashes66_loop exec fst snd] in *.
    destruct (o unit hist (HdSaveExternalAnnounce (ann_Hash announce))).
    set (hist1 := hist ++ [Ev (HdSaveExternalAnnounce (ann_Hash announce)) tt]) in *.
    destruct (o bool hist1 (HdHasLink (ann_Hash announce))) eqn:Hlink.
    + apply served_linked. apply IH.
    + cbn [exec fst snd] in *.
      set (hist2 := hist1 ++ [Ev (HdHasLink (ann_Hash announce)) false]) in *.
      set (requestId := o Z hist2 RandUint64) in *.
      fold (header_request requestId announce) in *.
      destruct (EncodeToBytes_GetBlockHeadersPacket66
                  (header_request requestId announce)) as [b | e] eqn:Henc.
      * cbn [exec fst snd] in *.
        set (hist3 := hist2 ++ [Ev RandUint64 requestId]) in *.
        destruct (o (option error) hist3
                    (SendMessageById sentry (in_PeerId req) GET_BLOCK_HEADERS_66 b))
          as [err | ] eqn:Hsend.
        -- destruct (isPeerNotFoundErr err) eqn:Hgone.
           ++ eapply served_request; [ exact Henc | exact Hgone | apply IH ].
           ++ eapply served_send_error; [ exact Henc | exact Hgone ].
        -- eapply served_request; [ exact Henc | exact I | apply IH ].
      * cbn [exec fst snd]. apply served_encode_error. exact Henc.
Qed.

(** A run that returns [nil] has saved every announce of the packet. *)
Lemma served_saves_every_announce : forall sentry peer request tr,
  served sentry peer request tr (Return None) ->
  select SaveExternalAnnounce_call tr = map ann_Hash request.
Proof.
  intros sentry peer request tr H.
  remember (Return None) as ex eqn:Hex.
  induction H as [| a rest tr ex _ IH | a rest tr ex requestId b reply _ _ _ IH
                  | a rest requestId e _ | a rest requestId b e _ _];
    try discriminate.
  - reflexivity.
  - cbn. f_equal. apply IH. exact Hex.
  - cbn. f_equal. apply IH. exact Hex.
Qed.

(** C7, as the code has it.  With block download enabled and the downloader
    not in an initial cycle that is not fetching, the announces of a
    [NewBlockHashes66] packet are taken in order: the hash is saved with
    [SaveExternalAnnounce]; a hash that already has a link draws no request;
    any other draws exactly one [GetBlockHeaders66] request, sent on the same
    sentry to the announcing peer, for the announced hash with amount 1,
    skip 0, reverse false and a request id drawn from [rand.Uint64].  The
    handler stops at the first request that fails to encode or whose send
    fails with an error other than peer-not-found, and returns that error;
    when it returns [nil], every announce of the packet has been saved. *)
Theorem newBlockHashes66_serves_every_announce :
  forall o hist cs req sentry request,
    let tr := trace o hist (newBlockHashes66 cs req sentry) in
    let v := value o hist (newBlockHashes66 cs req sentry) in
    disableBlockDownload cs = false ->
    (select InitialCycle_answer tr = [false] \/
     select FetchingNew_answer tr = [true]) ->
    DecodeBytes_NewBlockHashesPacket (in_Data req) = Ok request ->
    exists gate body,
      tr = gate ++ body /\
      gate_open gate /\
      served sentry (in_PeerId req) request body v /\
      (v = Return None ->
       select SaveExternalAnnounce_call tr = map ann_Hash request).
Proof.
  intros o hist cs req sentry request tr v Hdis Hgate Hdec. subst tr v.
  unfold newBlockHashes66 in *. rewrite Hdis, Hdec in *.
  unfold value, trace in *. cbn [exec fst snd] in *.
  destruct (o bool hist HdInitialCycle) eqn:Hinit.
  - cbn [exec fst snd bind] in *.
    destruct (o bool (hist ++ [Ev HdInitialCycle true]) HdFetchingNew) eqn:Hfetch.
    + cbn [exec fst snd bind andb negb] in *.
      exists [Ev HdInitialCycle true; Ev HdFetchingNew true].
      eexists. split; [ reflexivity | ]. split; [ right; reflexivity | ].
      rewrite <- app_assoc in *. cbn [app] in *.
      pose proof (newBlockHashes66_loop_served request o
                    (hist ++ [Ev HdInitialCycle true; Ev HdFetchingNew true])
                    req sentry) as Hserved.
      unfold value, trace in Hserved.
      split; [ exact Hserved | ].
      intros Hnil. rewrite Hnil in Hserved.
      apply served_saves_every_announce in Hserved. cbn. exact Hserved.
    + cbn in Hgate. destruct Hgate; discriminate.
  - cbn [exec fst snd bind andb negb] in *.
    exists [Ev HdInitialCycle false].
    eexists. split; [ reflexivity | ]. split; [ left; reflexivity | ].
    pose proof (newBlockHashes66_loop_served request o
                  (hist ++ [Ev HdInitialCycle false]) req sentry) as Hserved.
    unfold value, trace in Hserved.
    split; [ exact Hserved | ].
    intros Hnil. rewrite Hnil in Hserved.
    apply served_saves_every_announce in Hserved. cbn. exact Hserved.
Qed.

End Announces.

(** ** NewBlock66 *)

Section NewBlock.
Context {X : Externals}.

Lemma newBlock66_penalize_trace : forall (B : Type) (f : Event -> option B),
  blind_to_penalties f ->
  forall ss peer o hist,
    select f (trace o hist (newBlock66_penalize ss peer)) = [].
Proof.
  intros B f (Hpen & Hready & Hlog).
  induction ss as [| sentry rest IH]; intros peer o hist; [ reflexivity | ].
  cbn [newBlock66_penalize]. rewrite trace_bind, select_app.
  assert (forall h, select f (trace o h (sendPenalty sentry peer)) = []) as Hsend.
  { intros h. unfold sendPenalty, trace. cbn [exec fst snd].
    destruct (o (option error) h (PenalizePeer sentry peer Kick));
      cbn; rewrite ?Hpen, ?Hlog; reflexivity. }
  assert (forall h (skip : bool),
             select f (trace o h (if skip then newBlock66_penalize rest peer
                                  else bind (sendPenalty sentry peer)
                                         (fun _ => newBlock66_penalize rest peer))) = [])
    as Hrest.
  { intros h [|]; [ apply IH | ].
    rewrite trace_bind, select_app, Hsend, IH. reflexivity. }
  rewrite Hrest, app_nil_r.
  destruct (sentry_direct sentry); [ | reflexivity ].
  unfold trace. cbn. rewrite Hready. reflexivity.
Qed.

(** The run of [newBlock66_finish]. *)
Lemma newBlock66_finish_run : forall o hist inreq sentry request,
  let tr := trace o hist (newBlock66_finish inreq sentry request) in
  value o hist (newBlock66_finish inreq sentry request) = Return None /\
  select AddToPrefetch_call tr =
    [(Block_Header (nb_Block request), Block_RawBody (nb_Block request))] /\
  select PeerMinBlock_call tr =
    [(sentry, in_PeerId inreq, Block_NumberU64 (nb_Block request))] /\
  select PropagateNewBlockHashes_call tr = [] /\
  select SingleHeaderAsSegment_answer tr = [] /\
  select FirstPoSHeight_answer tr = [] /\
  select PenalizePeer_call tr = [] /\
  select Penalize_call tr = [].
Proof.
  intros o hist inreq sentry request tr. subst tr.
  run_as res Hres. unfold newBlock66_finish, sendPeerMinBlock in Hres.
  cbn [exec fst snd bind] in Hres.
  cases_of Hres; subst res; cbn; repeat split; reflexivity.
Qed.

(** The penalty branch: the penalty loop, then the closing statements. *)
Lemma newBlock66_segment_penalized :
  forall o hist cs inreq sentry request segments penalty,
    penalty <> NoPenalty ->
    exists loop hist',
      trace o hist (newBlock66_segment cs inreq sentry request segments penalty) =
        loop ++ trace o hist' (newBlock66_finish inreq sentry request) /\
      value o hist (newBlock66_segment cs inreq sentry request segments penalty) =
        value o hist' (newBlock66_finish inreq sentry request) /\
      forall (B : Type) (f : Event -> option B),
        blind_to_penalties f -> select f loop = [].
Proof.
  intros o hist cs inreq sentry request segments penalty Hpen.
  unfold newBlock66_segment.
  destruct penalty as [| code]; [ congruence | ]. cbn [Penalty_eqb].
  set (loop := newBlock66_penalize (sentries cs) (in_PeerId inreq)).
  assert (trace o hist (bind loop (fun _ => Ret (@None exit))) = trace o hist loop)
    as Htr.
  { rewrite trace_bind. cbn. apply app_nil_r. }
  assert (value o hist (bind loop (fun _ => Ret (@None exit))) = None) as Hv.
  { rewrite value_bind. reflexivity. }
  rewrite trace_bind, (value_bind (bind loop _)), Htr, Hv.
  exists (trace o hist loop), (hist ++ trace o hist loop).
  split; [ reflexivity | ]. split; [ reflexivity | ].
  intros B f Hblind. apply newBlock66_penalize_trace. exact Hblind.
Qed.


Lemma newBlock66_segment_noPenalty_run :
  forall o hist cs inreq sentry request segments,
    let tr := trace o hist
                (newBlock66_segment cs inreq sentry request segments NoPenalty) in
    select SingleHeaderAsSegment_answer tr = [] /\
    exists firstPosSeen,
      select FirstPoSHeight_answer tr = [firstPosSeen] /\
      select PropagateNewBlockHashes_call tr = announced cs firstPosSeen segments.
Proof.
  intros o hist cs inreq sentry request segments tr. subst tr.
  run_as res Hres.
  unfold newBlock66_segment, newBlock66_noPenalty, newBlock66_finish,
    sendPeerMinBlock in Hres.
  cbn [Penalty_eqb exec fst snd bind] in Hres.
  unfold announced.
  destruct (o (option Z) hist HdFirstPoSHeight) as [first | ] eqn:Hfirst;
    destruct (TerminalTotalDifficultyPassed cs), (IsMock cs),
      segments as [| seg0 rest];
    cbn [negb andb exec fst snd bind] in Hres |- *;
    try destruct (first >=? csh_Number seg0) eqn:Hge;
    cbn [negb andb exec fst snd bind] in Hres;
    cases_of Hres; subst res; cbn; (split; [ reflexivity | ]);
    eexists; (split; [ reflexivity | ]); cbn; rewrite ?Hge; reflexivity.
Qed.

(** [newBlock66] stops before it reaches the downloader, or it asks
    [SingleHeaderAsSegment] and goes on from the answer. *)
Lemma newBlock66_run : forall o hist cs inreq sentry,
  (trace o hist (newBlock66 cs inreq sentry) = [] /\
   exists err, value o hist (newBlock66 cs inreq sentry) = Return err) \/
  exists request headerRaw segments penalty err,
    DecodeBytes_NewBlockPacket (in_Data inreq) = Ok request /\
    disableBlockDownload cs = false /\
    let asked := Ev (HdSingleHeaderAsSegment headerRaw
                       (Block_Header (nb_Block request)) true)
                    (segments, penalty, err) in
    match err with
    | Some e =>
        trace o hist (newBlock66 cs inreq sentry) = [asked] /\
        value o hist (newBlock66 cs inreq sentry) =
          Return (Some (ErrWrap "singleHeaderAsSegment failed" e))
    | None =>
        trace o hist (newBlock66 cs inreq sentry) =
          asked :: trace o (hist ++ [asked])
                     (newBlock66_segment cs inreq sentry request segments penalty) /\
        value o hist (newBlock66 cs inreq sentry) =
          value o (hist ++ [asked])
            (newBlock66_segment cs inreq sentry request segments penalty)
    end.
Proof.
  intros o hist cs inreq sentry. unfold newBlock66.
  destruct (disableBlockDownload cs); [ left; split; [ reflexivity | eexists; reflexivity ] | ].
  destruct (Stream_List (NewStream (in_Data inreq))) as [[n1 s1] | e];
    [ | left; split; [ reflexivity | eexists; reflexivity ] ].
  destruct (Stream_List s1) as [[n2 s2] | e]; [ | left; split; [ reflexivity | eexists; reflexivity ] ].
  destruct (Stream_Raw s2) as [[headerRaw s3] | e]; [ | left; split; [ reflexivity | eexists; reflexivity ] ].
  destruct (DecodeBytes_NewBlockPacket (in_Data inreq)) as [request | e];
    [ | left; split; [ reflexivity | eexists; reflexivity ] ].
  destruct (NewBlockPacket_SanityCheck request); [ left; split; [ reflexivity | eexists; reflexivity ] | ].
  destruct (Block_HashCheck (nb_Block request) true); [ left; split; [ reflexivity | eexists; reflexivity ] | ].
  right. unfold trace, value. cbn [exec fst snd].
  destruct (o _ hist (HdSingleHeaderAsSegment headerRaw
                        (Block_Header (nb_Block request)) true))
    as [[segments penalty] err] eqn:Hanswer.
  exists request, headerRaw, segments, penalty, err.
  split; [ reflexivity | ]. split; [ reflexivity | ].
  destruct err; split; reflexivity.
Qed.

(** The branch without penalty, on the one-header segment that
    [SingleHeaderAsSegment] returns, runs on to the closing statements. *)
Lemma newBlock66_segment_noPenalty_finishes :
  forall o hist cs inreq sentry request seg0 rest,
    let p := newBlock66_segment cs inreq sentry request (seg0 :: rest) NoPenalty in
    value o hist p = Return None /\
    select AddToPrefetch_call (trace o hist p) =
      [(Block_Header (nb_Block request), Block_RawBody (nb_Block request))] /\
    select PeerMinBlock_call (trace o hist p) =
      [(sentry, in_PeerId inreq, Block_NumberU64 (nb_Block request))].
Proof.
  intros o hist cs inreq sentry request seg0 rest p. subst p.
  run_as res Hres.
  unfold newBlock66_segment, newBlock66_noPenalty, newBlock66_finish,
    sendPeerMinBlock in Hres.
  cbn [Penalty_eqb exec fst snd bind] in Hres.
  destruct (o (option Z) hist HdFirstPoSHeight) as [first | ] eqn:Hfirst;
    destruct (TerminalTotalDifficultyPassed cs), (IsMock cs);
    cbn [negb andb exec fst snd bind] in Hres;
    try destruct (first >=? csh_Number seg0) eqn:Hge;
    cbn [negb andb exec fst snd bind] in Hres;
    cases_of Hres; subst res; cbn; repeat split; reflexivity.
Qed.

(** C9.  Whether [SingleHeaderAsSegment] returns a penalty or, with its
    one-header segment, none: as soon as it returns without error, the body
    of the [NewBlock66] is handed to [Bd.AddToPrefetch] and the block number
    is reported with [PeerMinBlock], each exactly once, and the handler
    returns [nil].  In particular a penalized block is still prefetched and
    still reported. *)
Theorem newBlock66_penalized_still_prefetched :
  forall o hist cs inreq sentry segments penalty,
    let tr := trace o hist (newBlock66 cs inreq sentry) in
    In (segments, penalty, None) (select SingleHeaderAsSegment_answer tr) ->
    penalty <> NoPenalty \/ segments <> [] ->
    exists request,
      DecodeBytes_NewBlockPacket (in_Data inreq) = Ok request /\
      select AddToPrefetch_call tr =
        [(Block_Header (nb_Block request), Block_RawBody (nb_Block request))] /\
      select PeerMinBlock_call tr =
        [(sentry, in_PeerId inreq, Block_NumberU64 (nb_Block request))] /\
      value o hist (newBlock66 cs inreq sentry) = Return None.
Proof.
  intros o hist cs inreq sentry segments penalty tr Hin Hcase. subst tr.
  destruct (newBlock66_run o hist cs inreq sentry)
    as [[Hnone _] | (request & headerRaw & segments' & penalty' & err & Hdec & _ & Hrun)].
  { rewrite Hnone in Hin. destruct Hin. }
  exists request. split; [ exact Hdec | ].
  cbv zeta in Hrun. destruct err as [e | ]; destruct Hrun as [Htr Hv].
  { rewrite Htr in Hin. cbn in Hin. destruct Hin as [Heq | []]. discriminate. }
  rewrite Htr, Hv in *. clear Htr Hv.
  destruct (Penalty_eqb penalty' NoPenalty) eqn:Hno.
  - destruct penalty'; [ | discriminate ].
    destruct (newBlock66_segment_noPenalty_run
                o (hist ++ [Ev (HdSingleHeaderAsSegment headerRaw
                                  (Block_Header (nb_Block request)) true)
                               (segments', NoPenalty, None)])
                cs inreq sentry request segments') as [Hnoask _].
    cbn in Hin. cbn in Hnoask. rewrite Hnoask in Hin.
    destruct Hin as [Heq | []]. injection Heq as -> <-.
    destruct Hcase as [Hpen | Hne]; [ congruence | ].
    destruct segments as [| seg0 rest]; [ congruence | ].
    destruct (newBlock66_segment_noPenalty_finishes
                o (hist ++ [Ev (HdSingleHeaderAsSegment headerRaw
                                  (Block_Header (nb_Block request)) true)
                               (seg0 :: rest, NoPenalty, None)])
                cs inreq sentry request seg0 rest) as (Hv & Hpre & Hpmb).
    cbv zeta in Hv, Hpre, Hpmb. rewrite Hv.
    change (?e :: trace ?o' ?h ?q) with ([e] ++ trace o' h q).
    rewrite !select_app, Hpre, Hpmb. repeat split; reflexivity.
  - assert (penalty' <> NoPenalty) as Hpen' by (intros ->; discriminate).
    destruct (newBlock66_segment_penalized
                o (hist ++ [Ev (HdSingleHeaderAsSegment headerRaw
                                  (Block_Header (nb_Block request)) true)
                               (segments', penalty', None)])
                cs inreq sentry request segments' Hpen')
      as (loop & hist' & Htr & Hv & Hblind).
    rewrite Htr, Hv.
    destruct (newBlock66_finish_run o hist' inreq sentry request)
      as (Hfv & Hpre & Hpmb & _).
    cbv zeta in Hpre, Hpmb.
    change (?e :: ?l1 ++ ?l2) with ([e] ++ l1 ++ l2).
    rewrite !select_app, Hpre, Hpmb, Hfv.
    rewrite !Hblind by (repeat split; reflexivity).
    repeat split; reflexivity.
Qed.

(** A [NewBlock66] that is processed without penalty asks the first PoS
    height once and announces what [announced] says. *)
Lemma newBlock66_unpenalized_run : forall o hist cs inreq sentry segments,
  let tr := trace o hist (newBlock66 cs inreq sentry) in
  In (segments, NoPenalty, None) (select SingleHeaderAsSegment_answer tr) ->
  exists firstPosSeen,
    select FirstPoSHeight_answer tr = [firstPosSeen] /\
    select PropagateNewBlockHashes_call tr = announced cs firstPosSeen segments.
Proof.
  intros o hist cs inreq sentry segments tr Hin. subst tr.
  destruct (newBlock66_run o hist cs inreq sentry)
    as [[Hnone _] | (request & headerRaw & segments' & penalty' & err & Hdec & _ & Hrun)].
  { rewrite Hnone in Hin. destruct Hin. }
  cbv zeta in Hrun. destruct err as [e | ]; destruct Hrun as [Htr Hv].
  { rewrite Htr in Hin. cbn in Hin. destruct Hin as [Heq | []]. discriminate. }
  rewrite Htr in *. clear Htr Hv.
  destruct (Penalty_eqb penalty' NoPenalty) eqn:Hno.
  - destruct penalty'; [ | discriminate ].
    destruct (newBlock66_segment_noPenalty_run
                o (hist ++ [Ev (HdSingleHeaderAsSegment headerRaw
                                  (Block_Header (nb_Block request)) true)
                               (segments', NoPenalty, None)])
                cs inreq sentry request segments')
      as (Hnoask & firstPosSeen & Hfirst & Hprop).
    cbn in Hin. cbn in Hnoask. rewrite Hnoask in Hin.
    destruct Hin as [Heq | []]. injection Heq as ->.
    exists firstPosSeen. cbn. split; assumption.
  - assert (penalty' <> NoPenalty) as Hpen' by (intros ->; discriminate).
    destruct (newBlock66_segment_penalized
                o (hist ++ [Ev (HdSingleHeaderAsSegment headerRaw
                                  (Block_Header (nb_Block request)) true)
                               (segments', penalty', None)])
                cs inreq sentry request segments' Hpen')
      as (loop & hist' & Htr & Hv & Hblind).
    rewrite Htr in Hin.
    destruct (newBlock66_finish_run o hist' inreq sentry request)
      as (_ & _ & _ & _ & Hnoask & _).
    cbv zeta in Hnoask.
    change (?e :: ?l1 ++ ?l2) with ([e] ++ l1 ++ l2) in Hin.
    rewrite !select_app, Hnoask in Hin.
    rewrite Hblind in Hin by (repeat split; reflexivity).
    cbn in Hin. destruct Hin as [Heq | []]. injection Heq as -> ->.
    discriminate.
Qed.

(** C4, as the code has it.  For a [NewBlock66] processed without penalty:
    nothing is announced in mock mode; nothing is announced when a first PoS
    height was seen and the block number (the [Number] of the segment header
    that [SingleHeaderAsSegment] returns) is strictly greater than it; a
    block whose number is at most that height, the height itself included,
    is announced once unless the node is a mock or the terminal total
    difficulty has passed. *)
Theorem newBlock66_propagation_gate :
  forall o hist cs inreq sentry seg0 rest,
    let tr := trace o hist (newBlock66 cs inreq sentry) in
    In (seg0 :: rest, NoPenalty, None) (select SingleHeaderAsSegment_answer tr) ->
    (IsMock cs = true -> select PropagateNewBlockHashes_call tr = []) /\
    (forall first,
       In (Some first) (select FirstPoSHeight_answer tr) ->
       csh_Number seg0 > first ->
       select PropagateNewBlockHashes_call tr = []) /\
    (forall first,
       In (Some first) (select FirstPoSHeight_answer tr) ->
       csh_Number seg0 <= first ->
       IsMock cs = false ->
       TerminalTotalDifficultyPassed cs = false ->
       select PropagateNewBlockHashes_call tr =
         [[ {| ann_Hash := csh_Hash seg0; ann_Number := csh_Number seg0 |} ]]).
Proof.
  intros o hist cs inreq sentry seg0 rest tr Hin. subst tr.
  destruct (newBlock66_unpenalized_run o hist cs inreq sentry _ Hin)
    as (firstPosSeen & Hfirst & Hprop).
  cbv zeta in Hfirst, Hprop. rewrite Hfirst, Hprop. unfold announced.
  split; [ | split ].
  - intros ->. reflexivity.
  - intros first [-> | []] Hgt.
    rewrite Z.geb_leb. replace (csh_Number seg0 <=? first) with false by (symmetry; apply Z.leb_gt; lia).
    rewrite !andb_false_r. reflexivity.
  - intros first [-> | []] Hle -> ->.
    rewrite Z.geb_leb. replace (csh_Number seg0 <=? first) with true by (symmetry; apply Z.leb_le; lia).
    reflexivity.
Qed.
End NewBlock.

(** ** The query responders *)

Section Queries.
Context {X : Externals}.

(** C5, as the code has it.  For a [GetBlockHeaders66] query that decodes:
    when the store read returns a header list, empty or not, and the response
    encodes, exactly one [BlockHeaders66] message is sent, on the same sentry
    to the requesting peer, and it is the encoding of the query's request id
    with that header list; when the store read fails, nothing is sent and the
    handler returns the store error. *)
Theorem getBlockHeaders66_always_replies :
  forall o hist cs inreq sentry query,
    let tr := trace o hist (getBlockHeaders66 cs inreq sentry) in
    DecodeBytes_GetBlockHeadersPacket66 (in_Data inreq) = Ok query ->
    (forall headers b,
       In (gbh66_Packet query, Ok headers) (select DbView_answer tr) ->
       EncodeToBytes_BlockHeadersPacket66
         {| bh66_RequestId := gbh66_RequestId query;
            bh66_BlockHeadersPacket := headers |} = Ok b ->
       select SendMessageById_call tr =
         [(sentry, in_PeerId inreq, BLOCK_HEADERS_66, b)]) /\
    (forall e,
       In (gbh66_Packet query, Fail e) (select DbView_answer tr) ->
       select SendMessageById_call tr = [] /\
       value o hist (getBlockHeaders66 cs inreq sentry) =
         Return (Some (ErrWrap "querying BlockHeaders" e))).
Proof.
  intros o hist cs inreq sentry query tr Hdec. subst tr.
  run_as res Hres. unfold getBlockHeaders66 in Hres. rewrite Hdec in Hres.
  cbn [exec fst snd] in Hres. split.
  - intros headers b Hview Henc.
    cases_of Hres; subst res; cbn in Hview |- *;
      destruct Hview as [Heq | []]; inversion Heq; subst; try congruence.
    all: rewrite Henc in *; congruence.
  - intros e Hview.
    cases_of Hres; subst res; cbn in Hview |- *;
      destruct Hview as [Heq | []]; inversion Heq; subst;
      split; reflexivity.
Qed.

Lemma getBlockHeaders66_send_error : forall o hist cs inreq sentry s p id data e,
  In (s, p, id, data, Some e)
     (select SendMessageById_reply (trace o hist (getBlockHeaders66 cs inreq sentry))) ->
  value o hist (getBlockHeaders66 cs inreq sentry) =
  Return (Some (ErrWrap "send header response 66" e)).
Proof.
  intros o hist cs inreq sentry s p id data e Hin.
  run_as res Hres. unfold getBlockHeaders66 in Hres.
  cbn [exec fst snd] in Hres. cases_of Hres; subst res; cbn in Hin |- *;
    try contradiction; destruct Hin as [Heq | []]; inversion Heq; subst;
    reflexivity.
Qed.

Lemma getBlockBodies66_peer_not_found : forall o hist cs inreq sentry s p id data e,
  In (s, p, id, data, Some e)
     (select SendMessageById_reply (trace o hist (getBlockBodies66 cs inreq sentry))) ->
  isPeerNotFoundErr e = true ->
  value o hist (getBlockBodies66 cs inreq sentry) = Return None.
Proof.
  intros o hist cs inreq sentry s p id data e Hin Hgone.
  run_as res Hres. unfold getBlockBodies66 in Hres.
  cbn [exec fst snd bind deferring] in Hres.
  cases_of Hres; subst res; cbn in Hin |- *;
    try contradiction; destruct Hin as [Heq | []]; inversion Heq; subst;
    congruence.
Qed.

Lemma getReceipts66_peer_not_found : forall o hist cs inreq sentry s p id data e,
  In (s, p, id, data, Some e)
     (select SendMessageById_reply (trace o hist (getReceipts66 cs inreq sentry))) ->
  isPeerNotFoundErr e = true ->
  value o hist (getReceipts66 cs inreq sentry) = Return None.
Proof.
  intros o hist cs inreq sentry s p id data e Hin Hgone.
  run_as res Hres. unfold getReceipts66, getReceipts66_reply in Hres.
  cbn [exec fst snd bind deferring] in Hres.
  cases_of Hres; subst res; cbn in Hin |- *;
    try contradiction; destruct Hin as [Heq | []]; inversion Heq; subst;
    congruence.
Qed.
End Queries.

(** ** The dispatcher *)

Section Dispatcher.
Context {X : Externals}.


Lemma newBlockHashes66_loop_unpenalized : forall request o hist req sentry,
  unpenalized (trace o hist (newBlockHashes66_loop req sentry request)).
Proof.
  unfold unpenalized.
  induction request as [| announce rest IH]; intros o hist req sentry;
    [ split; reflexivity | ].
  unfold trace in *. cbn [newBlockHashes66_loop exec fst snd].
  repeat (match goal with
          | |- context [match ?x with _ => _ end] => destruct x
          | |- context [if ?x then _ else _] => destruct x
          end; cbn [exec fst snd]);
    cbn; try apply IH; split; reflexivity.
Qed.

Lemma newBlockHashes66_unpenalized : forall o hist cs req sentry,
  unpenalized (trace o hist (newBlockHashes66 cs req sentry)).
Proof.
  intros o hist cs req sentry. unfold newBlockHashes66.
  destruct (disableBlockDownload cs); [ split; reflexivity | ].
  unfold trace. cbn [exec fst snd].
  destruct (o bool hist HdInitialCycle); cbn [exec fst snd bind].
  - destruct (o bool _ HdFetchingNew); cbn [exec fst snd bind andb negb].
    + destruct (DecodeBytes_NewBlockHashesPacket (in_Data req));
        [ | split; reflexivity ].
      rewrite <- app_assoc. apply newBlockHashes66_loop_unpenalized.
    + split; reflexivity.
  - destruct (DecodeBytes_NewBlockHashesPacket (in_Data req));
      [ | split; reflexivity ].
    apply newBlockHashes66_loop_unpenalized.
Qed.

Lemma blockHeaders66_error_unpenalized : forall o hist cs inmsg sentry e,
  value o hist (blockHeaders66 cs inmsg sentry) = Return (Some e) ->
  unpenalized (trace o hist (blockHeaders66 cs inmsg sentry)).
Proof.
  intros o hist cs inmsg sentry e Herr. unfold blockHeaders66 in *.
  destruct (DecodeBytes_BlockHeadersPacket66 (in_Data inmsg)) as [pkt | e0];
    [ | split; reflexivity ].
  destruct (Stream_List (NewStream (in_Data inmsg))) as [[n1 s1] | e0];
    [ | split; reflexivity ].
  destruct (Stream_Uint s1) as [[n2 s2] | e0]; [ | split; reflexivity ].
  run_as res Hres. unfold blockHeaders in Hres.
  destruct (disableBlockDownload cs); [ subst res; split; reflexivity | ].
  destruct (List.length (bh66_BlockHeadersPacket pkt) =? 0)%nat;
    [ subst res; split; reflexivity | ].
  destruct (Stream_List s2) as [[n3 s3] | e0]; [ | subst res; split; reflexivity ].
  destruct (blockHeaders_loop (bh66_BlockHeadersPacket pkt) s3 0 [])
    as [[hb built] | e0]; [ | subst res; split; reflexivity ].
  unfold sendPeerMinBlock in Hres. cbn [exec fst snd bind deferring] in Hres.
  cases_of Hres; subst res; cbn in Herr |- *; try discriminate; split; reflexivity.
Qed.

Lemma newBlock66_error_unpenalized : forall o hist cs inreq sentry e,
  value o hist (newBlock66 cs inreq sentry) = Return (Some e) ->
  unpenalized (trace o hist (newBlock66 cs inreq sentry)).
Proof.
  intros o hist cs inreq sentry e Herr.
  destruct (newBlock66_run o hist cs inreq sentry)
    as [[Hnone _] | (request & headerRaw & segments & penalty & err & _ & _ & Hrun)].
  { rewrite Hnone. split; reflexivity. }
  cbv zeta in Hrun. destruct err as [e0 | ]; destruct Hrun as [Htr Hv].
  { rewrite Htr. split; reflexivity. }
  exfalso. rewrite Hv in Herr. clear Htr Hv.
  destruct (Penalty_eqb penalty NoPenalty) eqn:Hno.
  - destruct penalty; [ | discriminate ].
    revert Herr. generalize (hist ++ [Ev (HdSingleHeaderAsSegment headerRaw (Block_Header (nb_Block request)) true) (segments, NoPenalty, None)]).
    intros h Herr. run_as res Hres.
    unfold newBlock66_segment, newBlock66_noPenalty, newBlock66_finish,
      sendPeerMinBlock in Hres.
    cbn [Penalty_eqb exec fst snd bind] in Hres.
    destruct (o (option Z) h HdFirstPoSHeight) as [first | ];
      destruct (TerminalTotalDifficultyPassed cs), (IsMock cs),
        segments as [| seg0 rest];
      cbn [negb andb exec fst snd bind] in Hres;
      try destruct (first >=? csh_Number seg0);
      cbn [negb andb exec fst snd bind] in Hres;
      cases_of Hres; subst res; discriminate.
  - assert (penalty <> NoPenalty) as Hpen by (intros ->; discriminate).
    destruct (newBlock66_segment_penalized
                o (hist ++ [Ev (HdSingleHeaderAsSegment headerRaw
                                  (Block_Header (nb_Block request)) true)
                               (segments, penalty, None)])
                cs inreq sentry request segments Hpen)
      as (loop & hist' & _ & Hv & _).
    rewrite Hv in Herr.
    destruct (newBlock66_finish_run o hist' inreq sentry request) as (Hfv & _).
    congruence.
Qed.

Lemma handleInboundMessage_error_unpenalized : forall o hist cs inreq sentry e,
  value o hist (handleInboundMessage cs inreq sentry) = Return (Some e) ->
  unpenalized (trace o hist (handleInboundMessage cs inreq sentry)).
Proof.
  intros o hist cs inreq sentry e Herr. unfold handleInboundMessage in *.
  destruct (in_Id inreq).
  - apply newBlockHashes66_unpenalized.
  - eapply blockHeaders66_error_unpenalized. exact Herr.
  - eapply newBlock66_error_unpenalized. exact Herr.
  - clear Herr. run_as res Hres. unfold blockBodies66 in Hres.
    cases_of Hres; subst res; split; reflexivity.
  - clear Herr. run_as res Hres. unfold getBlockHeaders66 in Hres.
    cbn [exec fst snd] in Hres. cases_of Hres; subst res; split; reflexivity.
  - clear Herr. run_as res Hres. unfold getBlockBodies66 in Hres.
    cbn [exec fst snd bind deferring] in Hres.
    cases_of Hres; subst res; split; reflexivity.
  - split; reflexivity.
  - clear Herr. run_as res Hres. unfold getReceipts66, getReceipts66_reply in Hres.
    cbn [exec fst snd bind deferring] in Hres.
    cases_of Hres; subst res; split; reflexivity.
  - split; reflexivity.
Qed.

(** C3.  When the handler returns an error that [rlp.IsInvalidRLPError]
    accepts, the whole run of [HandleInboundMessage] holds exactly one
    [PenalizePeer] call: a [Kick] of the peer that sent the message, on the
    sentry that delivered it; whatever that call answers, the handler's error
    is what is returned.  For any other handler error the run holds no
    [PenalizePeer] call.  No run that ends in a handler error goes through
    [MultiClient.Penalize]. *)
Theorem HandleInboundMessage_kicks_on_invalid_rlp :
  forall o hist cs message sentry e,
    let tr := trace o hist (HandleInboundMessage cs message sentry) in
    value o hist (handleInboundMessage cs message sentry) = Return (Some e) ->
    select Penalize_call tr = [] /\
    (IsInvalidRLPError e = true ->
     select PenalizePeer_call tr = [(sentry, in_PeerId message, Kick)] /\
     value o hist (HandleInboundMessage cs message sentry) = Some e) /\
    (IsInvalidRLPError e = false -> select PenalizePeer_call tr = []).
Proof.
  intros o hist cs message sentry e tr Herr. subst tr.
  destruct (handleInboundMessage_error_unpenalized o hist cs message sentry Herr)
    as [Hnokick Hnopen].
  unfold HandleInboundMessage.
  rewrite trace_bind, value_bind, Herr, !select_app, Hnokick, Hnopen.
  set (h := hist ++ trace o hist (handleInboundMessage cs message sentry)).
  destruct (IsInvalidRLPError e).
  - unfold sendPenalty, trace, value. cbn [exec fst snd bind].
    destruct (o (option error) _ (PenalizePeer sentry (in_PeerId message) Kick));
      cbn; repeat split; try reflexivity; discriminate.
  - cbn. repeat split; try reflexivity; discriminate.
Qed.

(** C10.  Whatever the handler returns, [nil] or an error, penalized or not,
    is what [HandleInboundMessage] returns: the penalty for invalid RLP
    neither consumes nor replaces the handler's error. *)
Theorem HandleInboundMessage_returns_handler_error :
  forall o hist cs message sentry err,
    value o hist (handleInboundMessage cs message sentry) = Return err ->
    value o hist (HandleInboundMessage cs message sentry) = err.
Proof.
  intros o hist cs message sentry err Hret.
  unfold HandleInboundMessage. rewrite value_bind, Hret.
  destruct err as [e | ]; [ | reflexivity ].
  destruct (IsInvalidRLPError e); [ | reflexivity ].
  unfold sendPenalty, value. cbn [exec fst snd bind].
  destruct (o (option error) _ (PenalizePeer sentry (in_PeerId message) Kick));
    reflexivity.
Qed.
End Dispatcher.

(** ** The sample environment *)

Section InsertionSort.
Variable R : Z -> Z -> Prop.
Variable le : Z -> Z -> bool.
Hypothesis le_true : forall a b, le a b = true -> R a b.
Hypothesis le_false : forall a b, le a b = false -> R b a.
Hypothesis R_trans : forall a b c, R a b -> R b c -> R a c.

Lemma insert_perm : forall x l, Permutation (x :: l) (Sample.insert le x l).
Proof.
  induction l as [| y l IH]; simpl; [ reflexivity | ].
  destruct (le (csh_Number x) (csh_Number y)); [ reflexivity | ].
  rewrite perm_swap. apply perm_skip. exact IH.
Qed.

Lemma isort_perm : forall l, Permutation l (Sample.isort le l).
Proof.
  induction l as [| x l IH]; simpl; [ reflexivity | ].
  rewrite <- insert_perm. apply perm_skip. exact IH.
Qed.

Lemma insert_sorted : forall x l,
  StronglySorted (fun a b => R (csh_Number a) (csh_Number b)) l ->
  StronglySorted (fun a b => R (csh_Number a) (csh_Number b)) (Sample.insert le x l).
Proof.
  induction l as [| y l IH]; intros Hs; simpl.
  - repeat constructor.
  - inversion Hs as [| ? ? Hs' Hall]; subst.
    destruct (le (csh_Number x) (csh_Number y)) eqn:Hle.
    + constructor; [ exact Hs | ].
      constructor; [ apply le_true; exact Hle | ].
      rewrite Forall_forall in *. intros z Hz.
      eapply R_trans; [ apply le_true; exact Hle | apply Hall; exact Hz ].
    + constructor; [ apply IH; exact Hs' | ].
      eapply Permutation_Forall; [ apply insert_perm | ].
      constructor; [ apply le_false; exact Hle | exact Hall ].
Qed.

Lemma isort_sorted : forall l,
  StronglySorted (fun a b => R (csh_Number a) (csh_Number b)) (Sample.isort le l).
Proof.
  induction l as [| x l IH]; simpl; [ constructor | ].
  apply insert_sorted. exact IH.
Qed.

End InsertionSort.

(** Insertion sort meets the contract of the two [sort.Sort] calls. *)
Lemma sample_sort_laws : @SortLaws Sample.byte_codec.
Proof.
  constructor; intros l.
  - apply isort_perm.
  - apply (@isort_sorted Z.le Z.leb).
    + intros a b H. apply Z.leb_le. exact H.
    + intros a b H. apply Z.leb_gt in H. lia.
    + intros a b c. lia.
  - apply isort_perm.
  - apply (@isort_sorted Z.ge Z.geb).
    + intros a b H. rewrite Z.geb_leb in H. apply Z.leb_le in H. lia.
    + intros a b H. rewrite Z.geb_leb in H. apply Z.leb_gt in H. lia.
    + intros a b c. lia.
Qed.

(** The one-byte stream meets the contract of [rlp.Stream]. *)
Lemma sample_stream_laws : @StreamLaws Sample.byte_codec.
Proof.
  constructor. exists (fun s : bytes => s). repeat split.
  - intros s n s' H. cbn in H.
    destruct (Sample.malformed s); [ discriminate | ].
    injection H as _ <-. exists []. reflexivity.
  - intros s n s' H. cbn in H. destruct s as [| b s0]; [ discriminate | ].
    injection H as _ <-. exists [b]. reflexivity.
  - intros s raw s' H. cbn in H. destruct s as [| b s0]; [ discriminate | ].
    injection H as <- <-. reflexivity.
Qed.

(** ** The properties on concrete messages *)

Section Runs.
Import Sample.

(** Headers 8, 11 and 10 on a pre-merge node: what reaches the downloader is
    hashed from the raw bytes. *)
Lemma blockHeaders66_hash_of_raw_bytes_witness :
  exists segs,
    In segs (select downloader_input
               (trace (scripted calm) [] (blockHeaders66 node headers_8_11_10 sentry0))) /\
    map csh_HeaderRaw segs = [[x08]; [x0a]; [x0b]] /\
    exists pkt s raws,
      DecodeBytes_BlockHeadersPacket66 (in_Data headers_8_11_10) = Ok pkt /\
      headers_stream (in_Data headers_8_11_10) = Ok s /\
      Stream_Raws (List.length (bh66_BlockHeadersPacket pkt)) s = Ok raws /\
      (exists before after,
         in_Data headers_8_11_10 = before ++ List.concat raws ++ after) /\
      map csh_Header (segments_of (bh66_BlockHeadersPacket pkt) raws)
        = bh66_BlockHeadersPacket pkt /\
      map csh_HeaderRaw (segments_of (bh66_BlockHeadersPacket pkt) raws) = raws /\
      Permutation (segments_of (bh66_BlockHeadersPacket pkt) raws) segs /\
      Forall (fun h => csh_Hash h = RawRlpHash (csh_HeaderRaw h)) segs.
Proof.
  exists (isort Z.leb (segments_of (map header_of [x08; x0b; x0a])
                         [[x08]; [x0b]; [x0a]])).
  split; [ | split ].
  - vm_compute. left. reflexivity.
  - reflexivity.
  - apply (@blockHeaders66_hash_of_raw_bytes byte_codec sample_sort_laws
             sample_stream_laws (scripted calm) [] node headers_8_11_10 sentry0).
    vm_compute. left. reflexivity.
Defined.

(** The same packet after the merge: the downloader receives 11, 10, 8. *)
Lemma blockHeaders66_sorted_for_downloader_witness :
  let tr := trace (scripted (with_posSync true calm)) []
              (blockHeaders66 node headers_8_11_10 sentry0) in
  exists segs,
    In segs (select downloader_input tr) /\
    map csh_Number segs = [11; 10; 8] /\
    exists pkt s raws,
      DecodeBytes_BlockHeadersPacket66 (in_Data headers_8_11_10) = Ok pkt /\
      headers_stream (in_Data headers_8_11_10) = Ok s /\
      Stream_Raws (List.length (bh66_BlockHeadersPacket pkt)) s = Ok raws /\
      Permutation (segments_of (bh66_BlockHeadersPacket pkt) raws) segs /\
      ((select POSSync_answer tr = [false] /\
        (exists peer, select ProcessHeaders_call tr = [(segs, false, peer)]) /\
        select ProcessHeadersPOS_call tr = [] /\
        ascending segs /\
        (NoDup (block_numbers (bh66_BlockHeadersPacket pkt)) ->
         strictly_ascending segs)) \/
       (select POSSync_answer tr = [true] /\
        (exists tx peer, select ProcessHeadersPOS_call tr = [(segs, tx, peer)]) /\
        select ProcessHeaders_call tr = [] /\
        descending segs /\
        (NoDup (block_numbers (bh66_BlockHeadersPacket pkt)) ->
         strictly_descending segs))).
Proof.
  intros tr.
  exists (isort Z.geb (segments_of (map header_of [x08; x0b; x0a])
                         [[x08]; [x0b]; [x0a]])).
  split; [ | split ].
  - vm_compute. left. reflexivity.
  - reflexivity.
  - apply (@blockHeaders66_sorted_for_downloader byte_codec sample_sort_laws
             (scripted (with_posSync true calm)) [] node headers_8_11_10 sentry0).
    vm_compute. left. reflexivity.
Defined.

(** C2 as stated fails: two headers with block number 5 reach the downloader
    side by side, before and after the merge, so the sequence is neither
    strictly ascending nor strictly descending. *)
Lemma blockHeaders66_equal_numbers_not_strict :
  (exists segs peer,
     select POSSync_answer
       (trace (scripted calm) [] (blockHeaders66 node headers_5_5 sentry0)) = [false] /\
     select ProcessHeaders_call
       (trace (scripted calm) [] (blockHeaders66 node headers_5_5 sentry0))
       = [(segs, false, peer)] /\
     segs <> [] /\
     ~ strictly_ascending segs) /\
  (exists segs tx peer,
     select POSSync_answer
       (trace (scripted (with_posSync true calm)) []
          (blockHeaders66 node headers_5_5 sentry0)) = [true] /\
     select ProcessHeadersPOS_call
       (trace (scripted (with_posSync true calm)) []
          (blockHeaders66 node headers_5_5 sentry0))
       = [(segs, tx, peer)] /\
     segs <> [] /\
     ~ strictly_descending segs).
Proof.
  split.
  - eexists. eexists. split; [ reflexivity | ]. split; [ reflexivity | ].
    split; [ discriminate | ].
    intros Hs. inversion Hs as [| ? ? _ Hall]; subst.
    inversion Hall as [| ? ? Hlt _]; subst. vm_compute in Hlt. discriminate.
  - eexists. eexists. eexists. split; [ reflexivity | ]. split; [ reflexivity | ].
    split; [ discriminate | ].
    intros Hs. inversion Hs as [| ? ? _ Hall]; subst.
    inversion Hall as [| ? ? Hgt _]; subst. vm_compute in Hgt. discriminate.
Qed.

(** Scenario S4: block numbers 8, 11, 10 give one [PeerMinBlock] with 11. *)
Lemma blockHeaders66_peer_min_block_witness :
  let tr := trace (scripted calm) [] (blockHeaders66 node headers_8_11_10 sentry0) in
  select downloader_input tr <> [] /\
  value (scripted calm) [] (blockHeaders66 node headers_8_11_10 sentry0) = Return None /\
  select PeerMinBlock_call tr = [(sentry0, peer, 11)] /\
  exists pkt m,
    DecodeBytes_BlockHeadersPacket66 (in_Data headers_8_11_10) = Ok pkt /\
    bh66_BlockHeadersPacket pkt <> [] /\
    select PeerMinBlock_call tr = [(sentry0, in_PeerId headers_8_11_10, m)] /\
    In m (block_numbers (bh66_BlockHeadersPacket pkt)) /\
    Forall (fun n => n <= m) (block_numbers (bh66_BlockHeadersPacket pkt)) /\
    select branch_call (since_PeerMinBlock tr) = [].
Proof.
  intros tr.
  split; [ vm_compute; discriminate | ].
  split; [ reflexivity | ].
  split; [ reflexivity | ].
  apply (@blockHeaders66_peer_min_block byte_codec (scripted calm) [] node
           headers_8_11_10 sentry0).
  - vm_compute. discriminate.
  - reflexivity.
Defined.
End Runs.

Section MoreRuns.
Import Sample.

(** Scenario S3: a [BlockBodies66] payload that does not decode draws one
    [Kick], and the decode error is returned although the penalty could not
    be sent. *)
Lemma HandleInboundMessage_kicks_on_invalid_rlp_witness :
  let o := scripted (with_penalizeError (Some ErrUnavailable) calm) in
  let e := ErrWrap "decode BlockBodiesPacket66" ErrExpectedList in
  let tr := trace o [] (HandleInboundMessage node garbage_bodies sentry0) in
  value o [] (handleInboundMessage node garbage_bodies sentry0) = Return (Some e) /\
  IsInvalidRLPError e = true /\
  select Penalize_call tr = [] /\
  (IsInvalidRLPError e = true ->
   select PenalizePeer_call tr = [(sentry0, in_PeerId garbage_bodies, Kick)] /\
   value o [] (HandleInboundMessage node garbage_bodies sentry0) = Some e) /\
  (IsInvalidRLPError e = false -> select PenalizePeer_call tr = []).
Proof.
  intros o e tr.
  split; [ reflexivity | ]. split; [ reflexivity | ].
  apply (@HandleInboundMessage_kicks_on_invalid_rlp byte_codec o [] node
           garbage_bodies sentry0 e).
  reflexivity.
Defined.

(** The same message: the supervisor sees the decode error. *)
Lemma HandleInboundMessage_returns_handler_error_witness :
  let o := scripted (with_penalizeError (Some ErrUnavailable) calm) in
  let err := Some (ErrWrap "decode BlockBodiesPacket66" ErrExpectedList) in
  value o [] (handleInboundMessage node garbage_bodies sentry0) = Return err /\
  value o [] (HandleInboundMessage node garbage_bodies sentry0) = err.
Proof.
  intros o err. split; [ reflexivity | ].
  apply (@HandleInboundMessage_returns_handler_error byte_codec o [] node
           garbage_bodies sentry0 err).
  reflexivity.
Defined.

(** Block 5 with the first PoS height at 4: nothing is announced. *)
Lemma newBlock66_propagation_gate_witness :
  let o := scripted (with_firstPoSHeight (Some 4) calm) in
  let tr := trace o [] (newBlock66 node new_block_5 sentry0) in
  let seg0 := segment_of (header_of x05) [x05] in
  In ([seg0], NoPenalty, None) (select SingleHeaderAsSegment_answer tr) /\
  select FirstPoSHeight_answer tr = [Some 4] /\
  select PropagateNewBlockHashes_call tr = [] /\
  (IsMock node = true -> select PropagateNewBlockHashes_call tr = []) /\
  (forall first,
     In (Some first) (select FirstPoSHeight_answer tr) ->
     csh_Number seg0 > first ->
     select PropagateNewBlockHashes_call tr = []) /\
  (forall first,
     In (Some first) (select FirstPoSHeight_answer tr) ->
     csh_Number seg0 <= first ->
     IsMock node = false ->
     TerminalTotalDifficultyPassed node = false ->
     select PropagateNewBlockHashes_call tr =
       [[ {| ann_Hash := csh_Hash seg0; ann_Number := csh_Number seg0 |} ]]).
Proof.
  intros o tr seg0.
  split; [ vm_compute; left; reflexivity | ].
  split; [ reflexivity | ].
  split; [ reflexivity | ].
  apply (@newBlock66_propagation_gate byte_codec o [] node new_block_5 sentry0
           seg0 []).
  vm_compute. left. reflexivity.
Defined.

(** C4 as stated fails: block 5 arrives, processed without penalty, while the
    first PoS height seen is 5; the block number is not below that height,
    and the block is announced all the same. *)
Lemma newBlock66_announces_at_first_pos_height :
  let o := scripted (with_firstPoSHeight (Some 5) calm) in
  let tr := trace o [] (newBlock66 node new_block_5 sentry0) in
  exists seg0 first,
    select SingleHeaderAsSegment_answer tr = [([seg0], NoPenalty, None)] /\
    select FirstPoSHeight_answer tr = [Some first] /\
    csh_Number seg0 >= first /\
    select PropagateNewBlockHashes_call tr =
      [[ {| ann_Hash := csh_Hash seg0; ann_Number := csh_Number seg0 |} ]].
Proof.
  intros o tr. eexists. eexists.
  split; [ reflexivity | ]. split; [ reflexivity | ].
  split; [ vm_compute; discriminate | reflexivity ].
Qed.

(** Scenario S2: request id 7 against an empty store is answered with the
    request id and no header. *)
Lemma getBlockHeaders66_always_replies_witness :
  let tr := trace (scripted calm) [] (getBlockHeaders66 node header_query_7 sentry0) in
  exists query,
    DecodeBytes_GetBlockHeadersPacket66 (in_Data header_query_7) = Ok query /\
    gbh66_RequestId query = 7 /\
    In (gbh66_Packet query, Ok []) (select DbView_answer tr) /\
    EncodeToBytes_BlockHeadersPacket66
      {| bh66_RequestId := 7; bh66_BlockHeadersPacket := [] |} = Ok [x07] /\
    select SendMessageById_call tr =
      [(sentry0, in_PeerId header_query_7, BLOCK_HEADERS_66, [x07])].
Proof.
  intros tr. eexists.
  split; [ reflexivity | ]. split; [ reflexivity | ].
  split; [ vm_compute; left; reflexivity | ]. split; [ reflexivity | ].
  eapply (proj1 (@getBlockHeaders66_always_replies byte_codec (scripted calm) []
                   node header_query_7 sentry0 _ eq_refl)).
  - vm_compute. left. reflexivity.
  - reflexivity.
Defined.

(** C5 as stated fails: the query decodes, the store read fails, and no
    response is sent. *)
Lemma getBlockHeaders66_store_error_no_reply :
  let o := scripted (with_view (Fail ErrStore) calm) in
  exists query,
    DecodeBytes_GetBlockHeadersPacket66 (in_Data header_query_7) = Ok query /\
    select SendMessageById_call
      (trace o [] (getBlockHeaders66 node header_query_7 sentry0)) = [] /\
    value o [] (getBlockHeaders66 node header_query_7 sentry0) =
      Return (Some (ErrWrap "querying BlockHeaders" ErrStore)).
Proof.
  intros o. eexists. split; [ reflexivity | ]. split; reflexivity.
Qed.

(** C6 fails on the header response: the send comes back with peer not found,
    and [getBlockHeaders66] returns that error wrapped, where
    [getBlockBodies66], [getReceipts66] and [newBlockHashes66] return [nil]
    on the same answer. *)
Theorem getBlockHeaders66_propagates_peer_not_found :
  let o := scripted (with_sendError (Some ErrPeerNotFound) calm) in
  isPeerNotFoundErr ErrPeerNotFound = true /\
  select SendMessageById_reply
    (trace o [] (getBlockHeaders66 node header_query_7 sentry0)) =
    [(sentry0, peer, BLOCK_HEADERS_66, [x07], Some ErrPeerNotFound)] /\
  value o [] (getBlockHeaders66 node header_query_7 sentry0) =
    Return (Some (ErrWrap "send header response 66" ErrPeerNotFound)) /\
  value o [] (getBlockBodies66 node bodies_query_7 sentry0) = Return None /\
  value o [] (getReceipts66 node receipts_query_7 sentry0) = Return None /\
  value o [] (newBlockHashes66 node announces_1_2 sentry0) = Return None.
Proof.
  intros o. repeat split; reflexivity.
Qed.

(** Two announces, the peer gone in between: both are saved and requested. *)
Lemma newBlockHashes66_serves_every_announce_witness :
  let o := scripted (with_sendError (Some ErrPeerNotFound) calm) in
  let tr := trace o [] (newBlockHashes66 node announces_1_2 sentry0) in
  let v := value o [] (newBlockHashes66 node announces_1_2 sentry0) in
  let request := [ {| ann_Hash := 1; ann_Number := 1 |};
                   {| ann_Hash := 2; ann_Number := 2 |} ] in
  disableBlockDownload node = false /\
  select InitialCycle_answer tr = [false] /\
  DecodeBytes_NewBlockHashesPacket (in_Data announces_1_2) = Ok request /\
  v = Return None /\
  exists gate body,
    tr = gate ++ body /\
    gate_open gate /\
    served sentry0 (in_PeerId announces_1_2) request body v /\
    (v = Return None ->
     select SaveExternalAnnounce_call tr = map ann_Hash request).
Proof.
  intros o tr v request.
  split; [ reflexivity | ]. split; [ reflexivity | ].
  split; [ reflexivity | ]. split; [ reflexivity | ].
  apply (@newBlockHashes66_serves_every_announce byte_codec o [] node
           announces_1_2 sentry0 request).
  - reflexivity.
  - left. reflexivity.
  - reflexivity.
Defined.

(** C7 as stated fails: block download is enabled, the gate is open and the
    packet announces hashes 1 and 2; the request for hash 1 cannot be sent,
    the handler returns that error, and hash 2 is never saved. *)
Lemma newBlockHashes66_send_error_skips_rest :
  let o := scripted (with_sendError (Some ErrUnavailable) calm) in
  let tr := trace o [] (newBlockHashes66 node announces_1_2 sentry0) in
  disableBlockDownload node = false /\
  select InitialCycle_answer tr = [false] /\
  DecodeBytes_NewBlockHashesPacket (in_Data announces_1_2) =
    Ok [ {| ann_Hash := 1; ann_Number := 1 |}; {| ann_Hash := 2; ann_Number := 2 |} ] /\
  select SaveExternalAnnounce_call tr = [1] /\
  ~ In 2 (select SaveExternalAnnounce_call tr) /\
  value o [] (newBlockHashes66 node announces_1_2 sentry0) =
    Return (Some (ErrWrap "send header request" ErrUnavailable)).
Proof.
  intros o tr.
  split; [ reflexivity | ]. split; [ reflexivity | ].
  split; [ reflexivity | ]. split; [ reflexivity | ].
  split; [ | reflexivity ].
  vm_compute. intros [H | []]. discriminate.
Qed.

(** A refused block: kicked, prefetched and reported all the same. *)
Lemma newBlock66_penalized_still_prefetched_witness :
  let o := scripted (with_segment refused calm) in
  let tr := trace o [] (newBlock66 node new_block_5 sentry0) in
  In ([], OtherPenalty 1, None) (select SingleHeaderAsSegment_answer tr) /\
  OtherPenalty 1 <> NoPenalty /\
  select PenalizePeer_call tr = [(sentry0, peer, Kick)] /\
  exists request,
    DecodeBytes_NewBlockPacket (in_Data new_block_5) = Ok request /\
    select AddToPrefetch_call tr =
      [(Block_Header (nb_Block request), Block_RawBody (nb_Block request))] /\
    select PeerMinBlock_call tr =
      [(sentry0, in_PeerId new_block_5, Block_NumberU64 (nb_Block request))] /\
    value o [] (newBlock66 node new_block_5 sentry0) = Return None.
Proof.
  intros o tr.
  split; [ vm_compute; left; reflexivity | ].
  split; [ discriminate | ].
  split; [ reflexivity | ].
  apply (@newBlock66_penalized_still_prefetched byte_codec o [] node new_block_5
           sentry0 [] (OtherPenalty 1)).
  - vm_compute. left. reflexivity.
  - left. discriminate.
Defined.
End MoreRuns.
